(** * inventory_system.py: a shallow embedding and its properties

    The program keeps one module-level dictionary, [stock_data], from item
    names to quantities.  It is loaded from and saved to a JSON file and
    changed by [add_item] and [remove_item]; [get_qty],
    [check_low_items] and [print_data] read it.  ([main] is a
    demonstration; its operations are run at the end of this file.)

    Python is dynamically typed and the program relies on it: it tests
    [isinstance(item, str)], coerces quantities with [int(qty)], catches
    [TypeError], [ValueError] and [KeyError], and [load_data] binds
    [stock_data] to whatever object the file decodes to.  The embedding
    therefore works on a universe of Python objects ([pyval]), threads
    the global state (the object bound to [stock_data], the file system
    and the emitted log records) through a state-and-exception monad,
    and names the exceptions the code can meet.

    The arguments the source annotates and never tests are typed:
    [file_path] and the [item] of [get_qty] are strings, the [threshold]
    of [check_low_items] is an integer.  The [item] and [qty] of
    [add_item] and [remove_item] are arbitrary objects, because the code
    tests and coerces them.

    Of the limits of an interpreter the model has one, the default limit
    of 4300 digits on a text that [int] converts.  Memory and recursion
    depth are not part of it.  Neither is the text of a log record: a
    record keeps the values its message is formed from, and forming the
    message (which the same limit refuses for an integer of more than
    4300 digits) is taken to succeed. *)

From Stdlib Require Import ZArith List String Ascii Bool Lia.
From Stdlib Require Import Floats.SpecFloat.
From stdpp Require Import gmap strings sorting.

Import ListNotations.
Local Open Scope string_scope.
Local Open Scope list_scope.
Local Open Scope Z_scope.

(** ** Python objects *)

(** The objects the program can hold or be passed: the image of
    [json.load] (None, booleans, integers, floats, strings, lists,
    dictionaries with string keys).  Integers are unbounded, as in
    Python.  A float is an IEEE 754 binary64 value, in the Standard
    Library's specification of them ([spec_float]).  A dictionary is the
    list of its entries in insertion order, which is the order Python
    enumerates them in. *)
#[local] Set Warnings "-register-all".
Inductive pyval : Type :=
| PNone
| PBool (b : bool)
| PInt (z : Z)
| PFloat (x : spec_float)
| PStr (s : string)
| PList (l : list pyval)
| PDict (d : list (string * pyval)).

Abbreviation dict := (list (string * pyval)).

(** The exceptions of the program's [except] clauses and those its
    operations raise.  [OSError] stands for any failure of the file
    system other than the three named ones. *)
Inductive exn : Type :=
| FileNotFoundError
| PermissionError
| IsADirectoryError
| OSError
| UnicodeDecodeError
| JSONDecodeError
| TypeError
| ValueError
| OverflowError
| KeyError
| AttributeError.

(** Python's class hierarchy, as far as the [except] clauses test it:
    [JSONDecodeError] and [UnicodeDecodeError] derive from [ValueError].
    Every exception of [exn] derives from [Exception]. *)
Definition is_FileNotFoundError (e : exn) : bool :=
  match e with FileNotFoundError => true | _ => false end.

Definition is_JSONDecodeError (e : exn) : bool :=
  match e with JSONDecodeError => true | _ => false end.

Definition is_KeyError (e : exn) : bool :=
  match e with KeyError => true | _ => false end.

Definition is_TypeError (e : exn) : bool :=
  match e with TypeError => true | _ => false end.

Definition is_ValueError (e : exn) : bool :=
  match e with
  | ValueError | JSONDecodeError | UnicodeDecodeError => true
  | _ => false
  end.

(** The value of an expression: an object or a raised exception. *)
Inductive result (A : Type) : Type :=
| Returned (a : A)
| Raised (e : exn).
Arguments Returned {A} a.
Arguments Raised {A} e.

(** ** Floats (binary64) *)

Module Float.

Definition prec : Z := 53.
Definition emax : Z := 1024.

(** [float(n)] for an integer [n]: the nearest binary64 value, ties to
    even; [OverflowError] when [n] is beyond the finite range. *)
Definition of_int (n : Z) : result spec_float :=
  match binary_normalize prec emax n 0 false with
  | S754_infinity _ => Raised OverflowError
  | x => Returned x
  end.

(** [int(x)]: truncation toward zero; [nan] and the infinities have no
    integer value. *)
Definition to_int (x : spec_float) : result Z :=
  match x with
  | S754_zero _ => Returned 0
  | S754_infinity _ => Raised OverflowError
  | S754_nan => Raised ValueError
  | S754_finite s m e =>
      let mag := Z.shiftl (Zpos m) e in
      Returned (if s then - mag else mag)
  end.

(** [x < n] for a float [x] and an integer [n].  Python compares the
    two exactly, without converting [n] to a float. *)
Definition lt_int (x : spec_float) (n : Z) : bool :=
  match x with
  | S754_nan => false
  | S754_infinity s => s
  | S754_zero _ => 0 <? n
  | S754_finite s m e =>
      let v := if s then Zneg m else Zpos m in
      if 0 <=? e then v * 2 ^ e <? n else v <? n * 2 ^ (- e)
  end.

(** [x == 0]. *)
Definition is_zero (x : spec_float) : bool :=
  match x with S754_zero _ => true | _ => false end.

(** [x.is_integer()]. *)
Definition is_integer (x : spec_float) : bool :=
  match x with
  | S754_zero _ => true
  | S754_finite _ m e => (0 <=? e) || (Zpos m mod 2 ^ (- e) =? 0)
  | _ => false
  end.

Definition add : spec_float -> spec_float -> spec_float := SFadd prec emax.
Definition sub : spec_float -> spec_float -> spec_float := SFsub prec emax.

(** The float written [m * 2**e], rounded as a literal is. *)
Definition make (m e : Z) : spec_float := binary_normalize prec emax m e false.

End Float.

(** ** Numbers and the operators the program applies to them *)

(** [bool] is a subclass of [int]: [True] counts as 1 and [False] as 0
    in arithmetic and comparisons. *)
Inductive num : Type :=
| NInt (z : Z)
| NFloat (x : spec_float).

Definition as_num (v : pyval) : option num :=
  match v with
  | PBool b => Some (NInt (if b then 1 else 0))
  | PInt z => Some (NInt z)
  | PFloat x => Some (NFloat x)
  | _ => None
  end.

Definition num_to_float (n : num) : result spec_float :=
  match n with NInt z => Float.of_int z | NFloat x => Returned x end.

(** An arithmetic operator on two numbers: on integers when both are
    integers, otherwise on floats after converting the integer operand. *)
Definition num_binop (fz : Z -> Z -> Z) (ff : spec_float -> spec_float -> spec_float)
    (a b : num) : result pyval :=
  match a, b with
  | NInt x, NInt y => Returned (PInt (fz x y))
  | _, _ =>
      match num_to_float a, num_to_float b with
      | Returned x, Returned y => Returned (PFloat (ff x y))
      | Raised e, _ | _, Raised e => Raised e
      end
  end.

(** [a + n] for an integer [n].  On the objects of [pyval] that are not
    numbers (None, strings, lists, dictionaries) adding an integer raises
    [TypeError]. *)
Definition py_add_int (a : pyval) (n : Z) : result pyval :=
  match as_num a with
  | Some x => num_binop Z.add Float.add x (NInt n)
  | None => Raised TypeError
  end.

(** [a - b].  Subtraction is defined on numbers only. *)
Definition py_sub (a b : pyval) : result pyval :=
  match as_num a, as_num b with
  | Some x, Some y => num_binop Z.sub Float.sub x y
  | _, _ => Raised TypeError
  end.

(** [a < n] for an integer [n]: [TypeError] unless [a] is a number. *)
Definition py_lt_int (a : pyval) (n : Z) : result bool :=
  match as_num a with
  | Some (NInt z) => Returned (z <? n)
  | Some (NFloat x) => Returned (Float.lt_int x n)
  | None => Raised TypeError
  end.

(** [a == 0]: never raises; an object that is not a number is not
    equal to 0. *)
Definition py_eq_zero (a : pyval) : bool :=
  match as_num a with
  | Some (NInt z) => z =? 0
  | Some (NFloat x) => Float.is_zero x
  | None => false
  end.

(** ** [int(qty)] *)

Module IntOfStr.

(** A character of a string is a code point below 256.  The white space
    [int] strips from both ends of a string: the characters 9 to 13 and
    the space 32, and the next-line character 133 and the no-break space
    160, which it first turns into spaces.  (The separators 28 to 31
    are white space for [str.isspace] and [str.strip], not for [int]:
    [int] copies a character below 127 as it is and then strips with the
    C locale's [isspace].) *)
Definition is_space (c : ascii) : bool :=
  let n := Z.of_nat (nat_of_ascii c) in
  ((9 <=? n) && (n <=? 13)) || (n =? 32) || (n =? 133) || (n =? 160).

Fixpoint lstrip (l : list ascii) : list ascii :=
  match l with
  | c :: r => if is_space c then lstrip r else l
  | [] => []
  end.

Definition strip (l : list ascii) : list ascii :=
  rev (lstrip (rev (lstrip l))).

Definition digit_value (c : ascii) : option Z :=
  let n := Z.of_nat (nat_of_ascii c) in
  if (48 <=? n) && (n <=? 57) then Some (n - 48) else None.

(** Decimal digits, with single underscores allowed between two
    digits; [prev] tells whether the previous character was a digit. *)
Fixpoint digits (acc : Z) (prev : bool) (l : list ascii) : option Z :=
  match l with
  | [] => if prev then Some acc else None
  | c :: r =>
      if Ascii.eqb c "_"%char then
        if prev then digits acc false r else None
      else
        match digit_value c with
        | Some d => digits (10 * acc + d) true r
        | None => None
        end
  end.

(** The most digits a decimal text may have for [int] to convert it:
    [sys.int_info.default_max_str_digits], the default of the
    interpreter's setting.  Leading zeros count, underscores do not. *)
Definition max_str_digits : Z := 4300.

Definition is_digit (c : ascii) : bool :=
  match digit_value c with Some _ => true | None => false end.

Definition digit_count (l : list ascii) : Z :=
  Z.of_nat (List.length (List.filter is_digit l)).

(** [int(s)] in base 10: optional sign, then digits; [None] is
    [ValueError]. *)
Definition parse (s : string) : option Z :=
  let l := strip (list_ascii_of_string s) in
  if max_str_digits <? digit_count l then None
  else
    match l with
    | c :: r =>
        if Ascii.eqb c "+"%char then digits 0 false r
        else if Ascii.eqb c "-"%char then option_map Z.opp (digits 0 false r)
        else digits 0 false (c :: r)
    | [] => None
    end.

(** The characters of the strings [parse] accepts. *)
Definition int_char (c : ascii) : bool :=
  is_space c || Ascii.eqb c "+" || Ascii.eqb c "-" || Ascii.eqb c "_" ||
  is_digit c.

End IntOfStr.

(** [int(qty)]: an integer is itself, a boolean is 0 or 1, a float is
    truncated toward zero, a string is parsed as a decimal integer;
    [TypeError] for None, lists and dictionaries, [ValueError] for a
    string that is not an integer literal or has too many digits and for
    [nan], [OverflowError] for an infinite float. *)
Definition py_int (qty : pyval) : result Z :=
  match qty with
  | PInt z => Returned z
  | PBool b => Returned (if b then 1 else 0)
  | PFloat x => Float.to_int x
  | PStr s =>
      match IntOfStr.parse s with
      | Some z => Returned z
      | None => Raised ValueError
      end
  | PNone | PList _ | PDict _ => Raised TypeError
  end.

(** ** Dictionaries *)

(** [d.get(k)] as an option. *)
Fixpoint dict_get (k : string) (d : dict) : option pyval :=
  match d with
  | [] => None
  | (k', v) :: r => if String.eqb k k' then Some v else dict_get k r
  end.

(** [d[k] = v]: an existing key keeps its place, a new key goes last. *)
Fixpoint dict_set (k : string) (v : pyval) (d : dict) : dict :=
  match d with
  | [] => [(k, v)]
  | (k', v') :: r =>
      if String.eqb k k' then (k', v) :: r else (k', v') :: dict_set k v r
  end.

(** [del d[k]]. *)
Fixpoint dict_del (k : string) (d : dict) : dict :=
  match d with
  | [] => []
  | (k', v') :: r =>
      if String.eqb k k' then dict_del k r else (k', v') :: dict_del k r
  end.

(** The keys of a Python dictionary are distinct. *)
Definition dict_wf (d : dict) : Prop := NoDup (map fst d).

(** ** The world the program runs in *)

(** Severities of the [logging] module, and the level [basicConfig] sets
    for the root logger (the [level=logging.INFO] of the configuration). *)
Inductive level : Type := DEBUG | INFO | WARNING | ERROR.

Definition level_no (l : level) : Z :=
  match l with DEBUG => 10 | INFO => 20 | WARNING => 30 | ERROR => 40 end.

Definition configured_level : level := INFO.

(** One constructor for each logging call of the source, with the values
    its message interpolates. *)
Inductive message : Type :=
| MsgLoaded (file_path : string)
| MsgFileNotFound (file_path : string)
| MsgCorrupt (file_path : string)
| MsgLoadFailed (err : exn)
| MsgSaved (file_path : string)
| MsgSaveFailed (err : exn)
| MsgInvalidItem
| MsgInvalidQuantity (item : string) (qty : pyval)
| MsgDelegated (item : string) (amount : Z)
| MsgAddZero (item : string)
| MsgAdded (qty_int : Z) (item : string) (total : pyval)
| MsgNonPositive (qty_int : Z)
| MsgOnlyAvailable (current_qty : pyval) (item : string) (qty_removed : pyval)
| MsgDepleted (item : string)
| MsgRemoved (qty_removed : pyval) (item : string) (remaining : pyval)
| MsgNotFound (item : string)
| MsgRemovalFailed (err : exn).

(** A path of the file system holds a readable and writable file with
    some text, or is a place where [open] raises ([Faulty]: a directory,
    a file without permission, bytes that are not UTF-8, ...); a path
    that is not in the map does not exist.  The type of texts is left
    open: the program never looks into a text, it only passes it
    between the file and the JSON codec. *)
Inductive file (text : Type) : Type :=
| Regular (t : text)
| Faulty (e : exn).
Arguments Regular {text} t.
Arguments Faulty {text} e.

(** The state: the global [stock_data], the file system, and the records
    the logging calls have emitted, oldest first. *)
Record world (text : Type) : Type := World {
  stock_data : pyval;
  files : gmap string (file text);
  log : list (level * message)
}.
Arguments World {text} _ _ _.
Arguments stock_data {text} _.
Arguments files {text} _.
Arguments log {text} _.

(** ** State and exceptions *)

Section Monad.

Context {text : Type}.

(** A statement or expression: from a world to a result and the world
    it leaves; what a statement did before it raised stays done. *)
Definition M (A : Type) : Type := world text -> result A * world text.

Definition ret {A} (a : A) : M A := fun w => (Returned a, w).

Definition raise {A} (e : exn) : M A := fun w => (Raised e, w).

Definition bind {A B} (c : M A) (k : A -> M B) : M B :=
  fun w =>
    match c w with
    | (Returned a, w') => k a w'
    | (Raised e, w') => (Raised e, w')
    end.

(** [try: body  except ...: handler]; a handler re-raises what its
    clauses do not catch. *)
Definition try_except {A} (body : M A) (handler : exn -> M A) : M A :=
  fun w =>
    match body w with
    | (Returned a, w') => (Returned a, w')
    | (Raised e, w') => handler e w'
    end.

Definition lift {A} (r : result A) : M A := fun w => (r, w).

Definition get_stock : M pyval := fun w => (Returned (stock_data w), w).

Definition set_stock (v : pyval) : M unit :=
  fun w => (Returned tt, World v (files w) (log w)).

(** [logging.debug/info/warning/error]: the record is emitted when its
    level reaches the configured one.  The record holds the values of
    the message, not its text. *)
Definition logging (l : level) (m : message) : M unit :=
  fun w =>
    if level_no configured_level <=? level_no l
    then (Returned tt, World (stock_data w) (files w) (log w ++ [(l, m)]))
    else (Returned tt, w).

End Monad.

Declare Scope py_scope.
Delimit Scope py_scope with py.
Notation "x <- c1 ;; c2" := (bind c1 (fun x => c2))
  (at level 100, c1 at next level, right associativity) : py_scope.
Notation "c1 ;; c2" := (bind c1 (fun _ => c2))
  (at level 100, right associativity) : py_scope.

(** ** The program *)

Definition INVENTORY_FILE : string := "inventory.json".

Section Inventory.

Context {text : Type}.

(** The JSON codec, a collaborator of the program: [json_load] decodes
    a text ([None]: [json.JSONDecodeError]) and [json_dump] encodes an
    object with [indent=4] (every object of [pyval] has an encoding:
    [json.dump] writes None, booleans, numbers, strings, lists and
    dictionaries with string keys). *)
Variable json_load : text -> option pyval.
Variable json_dump : pyval -> text.

Local Open Scope py_scope.

(** *** Operations on the object bound to [stock_data] *)

(** [stock_data[item]]: [KeyError] on a dictionary without the key;
    the other objects of [pyval] have no item at a string. *)
Definition getitem (item : string) : M (text := text) pyval :=
  fun w =>
    match stock_data w with
    | PDict d =>
        match dict_get item d with
        | Some v => (Returned v, w)
        | None => (Raised KeyError, w)
        end
    | _ => (Raised TypeError, w)
    end.

(** [stock_data[item] = v]. *)
Definition setitem (item : string) (v : pyval) : M (text := text) unit :=
  fun w =>
    match stock_data w with
    | PDict d => (Returned tt, World (PDict (dict_set item v d)) (files w) (log w))
    | _ => (Raised TypeError, w)
    end.

(** [del stock_data[item]]. *)
Definition delitem (item : string) : M (text := text) unit :=
  fun w =>
    match stock_data w with
    | PDict d =>
        match dict_get item d with
        | Some _ => (Returned tt, World (PDict (dict_del item d)) (files w) (log w))
        | None => (Raised KeyError, w)
        end
    | _ => (Raised TypeError, w)
    end.

(** [stock_data.get(item, default)]: only a dictionary has the method. *)
Definition get_default (item : string) (default : pyval) : M (text := text) pyval :=
  fun w =>
    match stock_data w with
    | PDict d =>
        match dict_get item d with
        | Some v => (Returned v, w)
        | None => (Returned default, w)
        end
    | _ => (Raised AttributeError, w)
    end.

(** [stock_data.items()]. *)
Definition items : M (text := text) dict :=
  fun w =>
    match stock_data w with
    | PDict d => (Returned d, w)
    | _ => (Raised AttributeError, w)
    end.

(** *** Files *)

(** [open(file_path, "r", encoding='utf-8')] and reading the text. *)
Definition read_file (file_path : string) : M text :=
  fun w =>
    match files w !! file_path with
    | None => (Raised FileNotFoundError, w)
    | Some (Faulty e) => (Raised e, w)
    | Some (Regular t) => (Returned t, w)
    end.

(** [open(file_path, "w", encoding='utf-8')] and writing [t]: the file
    is created or overwritten.  Opening and writing are one step: either
    [open] raises and the file system is as it was, or the whole text is
    in the file.  A write that fails after [open] has emptied the file,
    and one file reached under two paths, are outside this model of the
    file system. *)
Definition write_file (file_path : string) (t : text) : M unit :=
  fun w =>
    match files w !! file_path with
    | Some (Faulty e) => (Raised e, w)
    | _ => (Returned tt,
            World (stock_data w) (<[file_path := Regular t]> (files w)) (log w))
    end.

Definition decode (t : text) : M (text := text) pyval :=
  match json_load t with
  | Some doc => ret doc
  | None => raise JSONDecodeError
  end.

(** *** load_data (lines 17-43) *)

Definition load_data (file_path : string) : M unit :=
  try_except
    (t <- read_file file_path ;;
     doc <- decode t ;;
     set_stock doc ;;
     logging INFO (MsgLoaded file_path))
    (fun err =>
       if is_FileNotFoundError err then
         logging INFO (MsgFileNotFound file_path) ;;
         set_stock (PDict [])
       else if is_JSONDecodeError err then
         logging ERROR (MsgCorrupt file_path) ;;
         set_stock (PDict [])
       else
         logging ERROR (MsgLoadFailed err) ;;
         set_stock (PDict [])).

(** *** save_data (lines 45-58) *)

Definition save_data (file_path : string) : M unit :=
  try_except
    (data <- get_stock ;;
     write_file file_path (json_dump data) ;;
     logging INFO (MsgSaved file_path))
    (fun err => logging ERROR (MsgSaveFailed err)).

(** *** remove_item (lines 90-133) *)

(** [not isinstance(item, str) or not item] fails: [item] is a string
    and it is not empty. *)
Definition as_item (item : pyval) : option string :=
  match item with
  | PStr EmptyString => None
  | PStr name => Some name
  | _ => None
  end.

(** [min(qty_int, current_qty)]: the second argument when it is
    smaller than the first, else the first. *)
Definition py_min (qty_int : Z) (current_qty : pyval) : result pyval :=
  match py_lt_int current_qty qty_int with
  | Returned true => Returned current_qty
  | Returned false => Returned (PInt qty_int)
  | Raised e => Raised e
  end.

Definition remove_item (item qty : pyval) : M (text := text) unit :=
  match as_item item with
  | None => logging WARNING MsgInvalidItem
  | Some name =>
      (* the first try block; [None] when the function has returned *)
      go_on <- try_except
        (qty_int <- lift (py_int qty) ;;
         if qty_int <=? 0 then
           logging WARNING (MsgNonPositive qty_int) ;;
           ret None
         else ret (Some qty_int))
        (fun err =>
           if is_TypeError err || is_ValueError err then
             logging ERROR (MsgInvalidQuantity name qty) ;;
             ret None
           else raise err) ;;
      match go_on with
      | None => ret tt
      | Some qty_int =>
          try_except
            (current_qty <- getitem name ;;
             qty_removed <- lift (py_min qty_int current_qty) ;;
             less <- lift (py_lt_int qty_removed qty_int) ;;
             (if less : bool
              then logging WARNING (MsgOnlyAvailable current_qty name qty_removed)
              else ret tt) ;;
             old <- getitem name ;;
             new <- lift (py_sub old qty_removed) ;;
             setitem name new ;;
             now <- getitem name ;;
             if py_eq_zero now then
               delitem name ;;
               logging INFO (MsgDepleted name)
             else
               remaining <- getitem name ;;
               logging INFO (MsgRemoved qty_removed name remaining))
            (fun err =>
               if is_KeyError err then logging ERROR (MsgNotFound name)
               else logging ERROR (MsgRemovalFailed err))
      end
  end.

(** *** add_item (lines 60-88) *)

Definition add_item (item qty : pyval) : M (text := text) unit :=
  match as_item item with
  | None => logging WARNING MsgInvalidItem
  | Some name =>
      go_on <- try_except
        (qty_int <- lift (py_int qty) ;;
         ret (Some qty_int))
        (fun err =>
           if is_TypeError err || is_ValueError err then
             logging ERROR (MsgInvalidQuantity name qty) ;;
             ret None
           else raise err) ;;
      match go_on with
      | None => ret tt
      | Some qty_int =>
          if qty_int <? 0 then
            logging INFO (MsgDelegated name (Z.abs qty_int)) ;;
            remove_item item (PInt (Z.abs qty_int))
          else if qty_int =? 0 then
            logging DEBUG (MsgAddZero name)
          else
            old <- get_default name (PInt 0) ;;
            new <- lift (py_add_int old qty_int) ;;
            setitem name new ;;
            total <- getitem name ;;
            logging INFO (MsgAdded qty_int name total)
      end
  end.

(** *** get_qty (lines 135-145) *)

Definition get_qty (item : string) : M (text := text) pyval :=
  get_default item (PInt 0).

(** *** check_low_items (lines 160-170) *)

(** The comprehension [[item for item, qty in d if qty < threshold]];
    a comparison that raises ends it. *)
Fixpoint low_items (threshold : Z) (d : dict) : result (list string) :=
  match d with
  | [] => Returned []
  | (item, qty) :: rest =>
      match py_lt_int qty threshold with
      | Raised e => Raised e
      | Returned b =>
          match low_items threshold rest with
          | Raised e => Raised e
          | Returned l => Returned (if b then item :: l else l)
          end
      end
  end.

Definition check_low_items (threshold : Z) : M (text := text) (list string) :=
  d <- items ;;
  lift (low_items threshold d).

End Inventory.

(** ** print_data (lines 147-158) *)

(** What [print] writes: a literal line, or the row
    [f"{item.ljust(max_len)} -> {qty}"] with the values it interpolates. *)
Inductive printed : Type :=
| PrintText (line : string)
| PrintRow (padded_item : string) (qty : pyval).

Definition report_header : string :=
  String (ascii_of_nat 10) "--- Items Report ---".
Definition report_empty : string := "Inventory is empty.".
Definition report_footer : string := "--------------------".

(** [bool(v)], the test of [if not stock_data]. *)
Definition truthy (v : pyval) : bool :=
  match v with
  | PNone => false
  | PBool b => b
  | PInt z => negb (z =? 0)
  | PFloat x => negb (Float.is_zero x)
  | PStr s => negb (String.eqb s EmptyString)
  | PList l => match l with [] => false | _ => true end
  | PDict d => match d with [] => false | _ => true end
  end.

(** [len(v)]: strings, lists and dictionaries have a length. *)
Definition py_len (v : pyval) : result nat :=
  match v with
  | PStr s => Returned (String.length s)
  | PList l => Returned (List.length l)
  | PDict d => Returned (List.length d)
  | _ => Raised TypeError
  end.

(** The objects [for i in v] goes through: the keys of a dictionary, the
    elements of a list, the characters of a string; the other objects
    are not iterable. *)
Definition py_iter (v : pyval) : result (list pyval) :=
  match v with
  | PDict d => Returned (map (fun kv => PStr (fst kv)) d)
  | PList l => Returned l
  | PStr s => Returned (map (fun c => PStr (String c EmptyString)) (list_ascii_of_string s))
  | _ => Raised TypeError
  end.

(** [max((len(i) for i in it), default=0)]. *)
Fixpoint max_len_of (it : list pyval) : result nat :=
  match it with
  | [] => Returned 0%nat
  | i :: rest =>
      match py_len i with
      | Raised e => Raised e
      | Returned n =>
          match max_len_of rest with
          | Raised e => Raised e
          | Returned m => Returned (Nat.max n m)
          end
      end
  end.

(** [s.ljust(width)]: [s] followed by spaces up to [width] characters. *)
Fixpoint spaces (n : nat) : string :=
  match n with
  | O => EmptyString
  | S k => String " "%char (spaces k)
  end.

Definition ljust (s : string) (width : nat) : string :=
  String.append s (spaces (width - String.length s)).

(** The length of the longest of some names, 0 when there is none. *)
Definition longest (names : list string) : nat :=
  fold_right (fun name m => Nat.max (String.length name) m) 0%nat names.

(** The order of [sorted] on the items of a dictionary: tuples compare
    by their first components, the item names, character by character;
    the names of a dictionary are distinct, so the quantities are never
    compared. *)
Definition entry_le (a b : string * pyval) : Prop :=
  String.leb (fst a) (fst b) = true.

#[global] Instance entry_le_dec : RelDecision entry_le.
Proof. intros a b. unfold entry_le. apply _. Defined.

(** [sorted(d.items())]. *)
Definition sorted (d : dict) : dict := merge_sort entry_le d.

Definition report_row (max_len : nat) (entry : string * pyval) : printed :=
  PrintRow (ljust (fst entry) max_len) (snd entry).

(** [print_data] reads [stock_data] and writes to the standard output:
    the lines it has printed, in order, and how it ends. *)
Definition print_data {text : Type} (w : world text) : result unit * list printed :=
  if negb (truthy (stock_data w)) then
    (Returned tt, [PrintText report_header; PrintText report_empty])
  else
    match py_iter (stock_data w) with
    | Raised e => (Raised e, [PrintText report_header])
    | Returned it =>
        match max_len_of it with
        | Raised e => (Raised e, [PrintText report_header])
        | Returned max_len =>
            match stock_data w with
            | PDict d =>
                (Returned tt,
                 PrintText report_header ::
                 map (report_row max_len) (sorted d) ++
                 [PrintText report_footer])
            | _ => (Raised AttributeError, [PrintText report_header])
            end
        end
    end.

(** ** The data model of the specification *)

(** The stock mapping is a dictionary whose values are integers. *)
Definition is_int (v : pyval) : Prop := exists z, v = PInt z.

Definition int_valued (d : dict) : Prop :=
  forall k v, dict_get k d = Some v -> is_int v.

(** No key maps to a non-positive value. *)
Definition positive_valued (d : dict) : Prop :=
  forall k v, dict_get k d = Some v -> exists z, v = PInt z /\ 0 < z.

Definition stock_invariant (s : pyval) : Prop :=
  exists d, s = PDict d /\ positive_valued d.

(** The item names of a dictionary, in its enumeration order. *)
Definition keys (d : dict) : list string := map fst d.

(** The stored quantity of a key is below the threshold. *)
Definition below (threshold : Z) (d : dict) (k : string) : bool :=
  match dict_get k d with
  | Some (PInt q) => q <? threshold
  | _ => false
  end.

(** The float 2.5. *)
Definition two_and_a_half : pyval := PFloat (Float.make 5 (-1)).

(** ** Files described by the document they encode *)

(** An instance of the codec to run the program on: a text is given by
    the object it decodes to, or is not JSON at all. *)
Module Doc.

Inductive text : Type :=
| Encoded (doc : pyval)
| Garbled.

Definition json_load (t : text) : option pyval :=
  match t with Encoded doc => Some doc | Garbled => None end.

Definition json_dump (v : pyval) : text := Encoded v.

(** The world at process start: an empty mapping, no file, no record. *)
Definition start : world text := World (PDict []) ∅ [].

(** The same, with one file at [file_path]. *)
Definition start_with (file_path : string) (f : file text) : world text :=
  World (PDict []) {[ file_path := f ]} [].

(** A world whose mapping has the entries [d], with no file and no
    record. *)
Definition stocked (d : dict) : world text := World (PDict d) ∅ [].

(** A file that holds the JSON object with the single member
    ["apple": 0]. *)
Definition apple_zero : file text := Regular (Encoded (PDict [("apple", PInt 0)])).

(** A file that holds the JSON array [[1, 2]]. *)
Definition one_two : file text := Regular (Encoded (PList [PInt 1; PInt 2])).

End Doc.

(** ** Vocabulary of the statements *)

Section Vocabulary.

Context {text : Type}.

(** What [logging] does at a level the configuration lets through. *)
Definition emit (lv : level) (m : message) (w : world text) : world text :=
  World (stock_data w) (files w) (log w ++ [(lv, m)]).

(** The quantity [get_qty] reports for [k] on the object [s]. *)
Definition quantity (k : string) (s : pyval) : result pyval :=
  match s with
  | PDict d =>
      match dict_get k d with
      | Some v => Returned v
      | None => Returned (PInt 0)
      end
  | _ => Raised AttributeError
  end.

(** The records of a removal of [R] from an integer entry [c]. *)
Definition removal_log (name : string) (c R : Z) : list (level * message) :=
  (if c <? R then [(WARNING, MsgOnlyAvailable (PInt c) name (PInt c))] else []) ++
  [if c <=? R then (INFO, MsgDepleted name)
   else (INFO, MsgRemoved (PInt R) name (PInt (c - R)))].

(** The entry of a key is an integer [old], or the key is new and [old]
    is 0. *)
Definition int_or_absent (o : option pyval) (old : Z) : Prop :=
  o = Some (PInt old) \/ (o = None /\ old = 0).

(** From [w] to [w'] the files stay; [stock_data] stays, or it was a
    dictionary and the entry of the item was assigned or deleted. *)
Definition touches_only (item : pyval) (w w' : world text) : Prop :=
  files w' = files w /\
  (stock_data w' = stock_data w \/
   exists name d, as_item item = Some name /\ stock_data w = PDict d /\
     ((exists v, stock_data w' = PDict (dict_set name v d)) \/
      stock_data w' = PDict (dict_del name d))).

(** The object [load_data] decodes from the file at [file_path]: [None]
    when the path does not exist, cannot be read or holds no valid JSON. *)
Definition document (json_load : text -> option pyval) (file_path : string)
    (w : world text) : option pyval :=
  match files w !! file_path with
  | Some (Regular t) => json_load t
  | _ => None
  end.

End Vocabulary.

(** ** Vocabulary of the further statements *)

Section Outcomes.

Context {text : Type}.

Implicit Types (w : world text) (d : dict) (name : string).
Implicit Types (item qty v : pyval) (l : list (level * message)).

(** Numbers: the objects [as_num] reads as one. *)
Definition is_number (v : pyval) : bool :=
  match as_num v with Some _ => true | None => false end.

(** The entry of [name] in [d] is an integer, or there is none. *)
Definition int_entry (name : string) (d : dict) : Prop :=
  dict_get name d = None \/ exists c, dict_get name d = Some (PInt c).

(** [l] ends with a record at level INFO. *)
Definition ends_with_info (l : list (level * message)) : Prop :=
  exists l0 m, l = l0 ++ [(INFO, m)].

(** The three ways [remove_item] can end. *)
Definition removal_outcome item qty w (r : result unit) (w' : world text) : Prop :=
  (exists e, r = Raised e /\ w' = w /\ py_int qty = Raised e /\
             is_TypeError e || is_ValueError e = false /\ as_item item <> None) \/
  (exists l, r = Returned tt /\ l <> [] /\
             w' = World (stock_data w) (files w) (log w ++ l)) \/
  (exists name d cur R new l,
     r = Returned tt /\
     as_item item = Some name /\ py_int qty = Returned R /\ 0 < R /\
     stock_data w = PDict d /\ dict_get name d = Some cur /\ as_num cur <> None /\
     w' = World (PDict (if py_eq_zero new then dict_del name d
                        else dict_set name new d))
                (files w) (log w ++ l) /\
     ends_with_info l).

(** The value [add_item] adds to: the entry of the item, or 0. *)
Definition entry_or_zero (name : string) (d : dict) : pyval :=
  match dict_get name d with
  | Some v => v
  | None => PInt 0
  end.

(** The four ways [add_item] can end: an exception (from the coercion,
    from [get] on an object that is no dictionary, or from the
    addition), no change of the mapping, a removal, an addition. *)
Definition addition_outcome item qty w (r : result unit) (w' : world text) : Prop :=
  (exists e, r = Raised e /\ w' = w /\ as_item item <> None /\
     ((py_int qty = Raised e /\ is_TypeError e || is_ValueError e = false) \/
      (exists n, py_int qty = Returned n /\ 0 < n /\
         ((e = AttributeError /\ forall d, stock_data w <> PDict d) \/
          (exists name d, as_item item = Some name /\ stock_data w = PDict d /\
             py_add_int (entry_or_zero name d) n = Raised e))))) \/
  (exists l, r = Returned tt /\
             w' = World (stock_data w) (files w) (log w ++ l)) \/
  (exists name d cur n new l,
     r = Returned tt /\
     as_item item = Some name /\ py_int qty = Returned n /\ n < 0 /\
     stock_data w = PDict d /\ dict_get name d = Some cur /\ as_num cur <> None /\
     w' = World (PDict (if py_eq_zero new then dict_del name d
                        else dict_set name new d))
                (files w) (log w ++ l) /\
     ends_with_info l) \/
  (exists name d n new,
     r = Returned tt /\
     as_item item = Some name /\ py_int qty = Returned n /\ 0 < n /\
     stock_data w = PDict d /\
     py_add_int (entry_or_zero name d) n = Returned new /\
     w' = World (PDict (dict_set name new d)) (files w)
                (log w ++ [(INFO, MsgAdded n name new)])).

End Outcomes.

(** ** Lemmas on dictionaries *)

Section DictLemmas.

Implicit Types (k : string) (v : pyval) (d : dict).

Lemma dict_get_set_eq k v d : dict_get k (dict_set k v d) = Some v.
Proof.
  induction d as [|[k' v'] r IH]; simpl.
  - now rewrite String.eqb_refl.
  - destruct (String.eqb k k') eqn:E; simpl; rewrite E; auto.
Qed.

Lemma dict_get_set_ne k k' v d :
  k <> k' -> dict_get k' (dict_set k v d) = dict_get k' d.
Proof.
  intros Hne. induction d as [|[k0 v0] r IH]; simpl.
  - destruct (String.eqb k' k) eqn:E; auto.
    apply String.eqb_eq in E. congruence.
  - destruct (String.eqb k k0) eqn:E; simpl.
    + apply String.eqb_eq in E. subst k0.
      destruct (String.eqb k' k) eqn:E'; auto.
      apply String.eqb_eq in E'. congruence.
    + now rewrite IH.
Qed.

Lemma dict_get_del_eq k d : dict_get k (dict_del k d) = None.
Proof.
  induction d as [|[k' v'] r IH]; simpl; auto.
  destruct (String.eqb k k') eqn:E; simpl; auto.
  now rewrite E.
Qed.

Lemma dict_get_del_ne k k' d :
  k <> k' -> dict_get k' (dict_del k d) = dict_get k' d.
Proof.
  intros Hne. induction d as [|[k0 v0] r IH]; simpl; auto.
  destruct (String.eqb k k0) eqn:E; simpl.
  - apply String.eqb_eq in E. subst k0.
    destruct (String.eqb k' k) eqn:E'; auto.
    apply String.eqb_eq in E'. congruence.
  - now rewrite IH.
Qed.

Lemma dict_get_In k d : dict_get k d <> None <-> In k (keys d).
Proof.
  induction d as [|[k' v'] r IH]; simpl.
  - tauto.
  - destruct (String.eqb k k') eqn:E.
    + apply String.eqb_eq in E. subst. split; [auto | discriminate].
    + apply String.eqb_neq in E. rewrite IH. split; [auto | intros [?|?]]; congruence.
Qed.

Lemma dict_del_absent k d : dict_get k d = None -> dict_del k d = d.
Proof.
  induction d as [|[k' v'] r IH]; simpl; auto.
  destruct (String.eqb k k') eqn:E; [discriminate |].
  intros H. now rewrite IH.
Qed.

Lemma keys_dict_del k d :
  keys (dict_del k d) = List.filter (fun k' => negb (String.eqb k k')) (keys d).
Proof.
  induction d as [|[k' v'] r IH]; simpl; auto.
  destruct (String.eqb k k'); simpl; now rewrite IH.
Qed.

Lemma keys_dict_set_present k v d :
  dict_get k d <> None -> keys (dict_set k v d) = keys d.
Proof.
  induction d as [|[k' v'] r IH]; simpl; [congruence |].
  destruct (String.eqb k k'); simpl; auto.
  intros H. now rewrite IH.
Qed.

Lemma keys_dict_set_absent k v d :
  dict_get k d = None -> keys (dict_set k v d) = keys d ++ [k].
Proof.
  induction d as [|[k' v'] r IH]; simpl; auto.
  destruct (String.eqb k k'); simpl; [discriminate |].
  intros H. now rewrite IH.
Qed.

Lemma dict_del_set k v d : dict_del k (dict_set k v d) = dict_del k d.
Proof.
  induction d as [|[k' v'] r IH]; simpl.
  - now rewrite String.eqb_refl.
  - destruct (String.eqb k k') eqn:E; simpl; rewrite E; auto.
    now rewrite IH.
Qed.

(** Assignment and deletion keep the keys distinct. *)
Lemma dict_wf_set k v d : dict_wf d -> dict_wf (dict_set k v d).
Proof.
  unfold dict_wf. fold (keys d) (keys (dict_set k v d)). intros Hwf.
  destruct (dict_get k d) eqn:E.
  - rewrite keys_dict_set_present; [assumption | congruence].
  - rewrite keys_dict_set_absent by assumption.
    apply NoDup_app. repeat split; auto.
    + intros x Hx Hk. apply list_elem_of_In in Hx, Hk.
      destruct Hk as [<-|[]]. apply dict_get_In in Hx. congruence.
    + apply NoDup_singleton.
Qed.

Lemma dict_wf_del k d : dict_wf d -> dict_wf (dict_del k d).
Proof.
  unfold dict_wf. fold (keys d) (keys (dict_del k d)).
  rewrite keys_dict_del.
  induction (keys d) as [|x l IH]; simpl; auto.
  rewrite NoDup_cons. intros [Hx Hl].
  destruct (String.eqb k x); simpl; auto.
  rewrite NoDup_cons. split; auto.
  rewrite list_elem_of_In, filter_In, <- list_elem_of_In. tauto.
Qed.

End DictLemmas.

(** ** What [int] accepts as text *)

Module IntOfStrFacts.
Import IntOfStr.

Lemma digits_chars l : forall acc prev z,
  digits acc prev l = Some z -> forall c, In c l -> int_char c = true.
Proof.
  induction l as [|c0 r IH]; intros acc prev z H c Hin; [destruct Hin |].
  simpl in H. unfold int_char, is_digit.
  destruct (Ascii.eqb c0 "_") eqn:Eu.
  - destruct prev; [| discriminate].
    destruct Hin as [<- | Hin].
    + rewrite Eu. now rewrite !orb_true_r.
    + eapply IH; eauto.
  - destruct (digit_value c0) as [dv|] eqn:Ed; [| discriminate].
    destruct Hin as [<- | Hin].
    + rewrite Ed. now rewrite !orb_true_r.
    + eapply IH; eauto.
Qed.

Lemma lstrip_keeps c l : In c l -> is_space c = false -> In c (lstrip l).
Proof.
  induction l as [|c0 r IH]; simpl; [tauto |].
  intros [<- | Hin] Hc.
  - rewrite Hc. now left.
  - destruct (is_space c0); [auto | now right].
Qed.

Lemma strip_keeps c l : In c l -> is_space c = false -> In c (strip l).
Proof.
  intros Hin Hc. unfold strip.
  apply in_rev. rewrite rev_involutive.
  apply lstrip_keeps; [| assumption].
  apply -> in_rev. now apply lstrip_keeps.
Qed.

(** A string [int] accepts is made of white space, signs, underscores
    and decimal digits only. *)
Lemma parse_chars s z :
  parse s = Some z -> forall c, In c (list_ascii_of_string s) -> int_char c = true.
Proof.
  unfold parse. intros H c Hin.
  destruct (is_space c) eqn:Hc; [unfold int_char; now rewrite Hc |].
  pose proof (strip_keeps c _ Hin Hc) as Hs.
  destruct (max_str_digits <? _); [discriminate |].
  destruct (strip (list_ascii_of_string s)) as [|c0 r]; [destruct Hs |].
  destruct (Ascii.eqb c0 "+") eqn:Ep.
  { destruct Hs as [<- | Hs]; [unfold int_char; rewrite Ep; now rewrite !orb_true_r |].
    eapply digits_chars; eauto. }
  destruct (Ascii.eqb c0 "-") eqn:Em.
  { destruct Hs as [<- | Hs]; [unfold int_char; rewrite Em; now rewrite !orb_true_r |].
    destruct (digits 0 false r) eqn:Hd; [| discriminate].
    eapply digits_chars; eauto. }
  eapply digits_chars; eauto.
Qed.

End IntOfStrFacts.

(** ** The paths through [remove_item] and [add_item] *)

(** Unfolds the monad and the primitive statements. *)
Ltac run :=
  unfold bind, try_except, lift, ret, raise, logging, emit, getitem, setitem,
    delitem, get_default, items, get_stock, set_stock; simpl.

Section Paths.

Context {text : Type}.

Implicit Types (w : world text) (d : dict) (name k : string).
Implicit Types (item qty v : pyval) (f : gmap string (file text)).
Implicit Types (l : list (level * message)).

(** An item that is not a string, or is the empty string: a warning,
    nothing else. *)
Lemma remove_item_invalid_item item qty w :
  as_item item = None ->
  remove_item item qty w = (Returned tt, emit WARNING MsgInvalidItem w).
Proof. intros H. unfold remove_item. rewrite H. reflexivity. Qed.

(** The coercion raises [TypeError] or [ValueError]: an error record,
    nothing else. *)
Lemma remove_item_bad_quantity item name qty e w :
  as_item item = Some name -> py_int qty = Raised e ->
  is_TypeError e || is_ValueError e = true ->
  remove_item item qty w = (Returned tt, emit ERROR (MsgInvalidQuantity name qty) w).
Proof.
  intros Hi Hq He. unfold remove_item. rewrite Hi. run. rewrite Hq, He.
  reflexivity.
Qed.

(** The coercion raises something else: the exception leaves the
    function. *)
Lemma remove_item_raises item name qty e w :
  as_item item = Some name -> py_int qty = Raised e ->
  is_TypeError e || is_ValueError e = false ->
  remove_item item qty w = (Raised e, w).
Proof.
  intros Hi Hq He. unfold remove_item. rewrite Hi. run. rewrite Hq, He.
  reflexivity.
Qed.

Lemma remove_item_non_positive item name qty R w :
  as_item item = Some name -> py_int qty = Returned R -> R <= 0 ->
  remove_item item qty w = (Returned tt, emit WARNING (MsgNonPositive R) w).
Proof.
  intros Hi Hq HR. unfold remove_item. rewrite Hi. run. rewrite Hq.
  destruct (Z.leb_spec R 0); [reflexivity | lia].
Qed.

(** The item is not a key: [KeyError], caught and logged. *)
Lemma remove_item_absent item name qty R d w :
  as_item item = Some name -> py_int qty = Returned R -> 0 < R ->
  stock_data w = PDict d -> dict_get name d = None ->
  remove_item item qty w = (Returned tt, emit ERROR (MsgNotFound name) w).
Proof.
  intros Hi Hq HR Hd Hk. destruct w as [s f l]. simpl in Hd. subst s.
  unfold remove_item. rewrite Hi. run. rewrite Hq.
  destruct (Z.leb_spec R 0); [lia |]. simpl. rewrite Hk. reflexivity.
Qed.

(** The item is a key with an integer quantity [c]. *)
Lemma remove_item_int item name qty R c d w :
  as_item item = Some name -> py_int qty = Returned R -> 0 < R ->
  stock_data w = PDict d -> dict_get name d = Some (PInt c) ->
  remove_item item qty w =
    (Returned tt,
     World (PDict (if c <=? R then dict_del name d
                   else dict_set name (PInt (c - R)) d))
           (files w) (log w ++ removal_log name c R)).
Proof.
  intros Hi Hq HR Hd Hk. destruct w as [s f l]. simpl in Hd. subst s.
  unfold remove_item, removal_log. rewrite Hi. run. rewrite Hq.
  destruct (Z.leb_spec R 0); [lia |]. simpl.
  rewrite Hk. unfold py_min. simpl.
  destruct (Z.ltb_spec c R) as [Hlt|Hge]; simpl.
  - rewrite (proj2 (Z.ltb_lt c R) Hlt). simpl. rewrite Hk. simpl.
    rewrite Z.sub_diag, dict_get_set_eq. simpl. rewrite dict_get_set_eq.
    destruct (Z.leb_spec c R); [|lia]. rewrite dict_del_set. simpl.
    now rewrite <- app_assoc.
  - rewrite Z.ltb_irrefl. simpl. rewrite Hk. simpl.
    rewrite dict_get_set_eq. cbn [py_eq_zero as_num].
    destruct (Z.eqb_spec (c - R) 0) as [E0|E0]; simpl.
    + rewrite dict_get_set_eq, dict_del_set.
      destruct (Z.leb_spec c R); [|lia]. reflexivity.
    + rewrite dict_get_set_eq. destruct (Z.leb_spec c R); [lia|]. reflexivity.
Qed.

Lemma add_item_invalid_item item qty w :
  as_item item = None ->
  add_item item qty w = (Returned tt, emit WARNING MsgInvalidItem w).
Proof. intros H. unfold add_item. rewrite H. reflexivity. Qed.

Lemma add_item_bad_quantity item name qty e w :
  as_item item = Some name -> py_int qty = Raised e ->
  is_TypeError e || is_ValueError e = true ->
  add_item item qty w = (Returned tt, emit ERROR (MsgInvalidQuantity name qty) w).
Proof.
  intros Hi Hq He. unfold add_item. rewrite Hi. run. rewrite Hq, He.
  reflexivity.
Qed.

Lemma add_item_raises item name qty e w :
  as_item item = Some name -> py_int qty = Raised e ->
  is_TypeError e || is_ValueError e = false ->
  add_item item qty w = (Raised e, w).
Proof.
  intros Hi Hq He. unfold add_item. rewrite Hi. run. rewrite Hq, He.
  reflexivity.
Qed.

(** A negative quantity: one record, then [remove_item] with the
    absolute value. *)
Lemma add_item_negative item name qty n w :
  as_item item = Some name -> py_int qty = Returned n -> n < 0 ->
  add_item item qty w =
    remove_item item (PInt (Z.abs n)) (emit INFO (MsgDelegated name (Z.abs n)) w).
Proof.
  intros Hi Hq Hn. unfold add_item. rewrite Hi. run. rewrite Hq.
  destruct (Z.ltb_spec n 0); [reflexivity | lia].
Qed.

(** Quantity zero: the record is below the configured level, so the
    world is left as it was. *)
Lemma add_item_zero item name qty w :
  as_item item = Some name -> py_int qty = Returned 0 ->
  add_item item qty w = (Returned tt, w).
Proof.
  intros Hi Hq. unfold add_item. rewrite Hi. run. rewrite Hq. reflexivity.
Qed.

(** A positive quantity and a key that is new or holds an integer:
    [old] is the quantity before, 0 for a new key. *)
Lemma add_item_int item name qty n old d w :
  as_item item = Some name -> py_int qty = Returned n -> 0 < n ->
  stock_data w = PDict d -> int_or_absent (dict_get name d) old ->
  add_item item qty w =
    (Returned tt,
     World (PDict (dict_set name (PInt (old + n)) d)) (files w)
           (log w ++ [(INFO, MsgAdded n name (PInt (old + n)))])).
Proof.
  intros Hi Hq Hn Hd Hk. destruct w as [s f l]. simpl in Hd. subst s.
  unfold add_item. rewrite Hi. run. rewrite Hq.
  destruct (Z.ltb_spec n 0); [lia |].
  destruct (Z.eqb_spec n 0); [lia |]. simpl.
  destruct Hk as [Hk | [Hk ->]]; rewrite Hk; simpl;
    now rewrite dict_get_set_eq.
Qed.

(** *** What the two operations can change, in any state *)

Lemma touches_only_refl item w : touches_only item w w.
Proof. split; auto. Qed.

Lemma touches_only_emit item lv m w : touches_only item w (emit lv m w).
Proof. split; auto. Qed.

Lemma remove_item_effect item qty w :
  touches_only item w (snd (remove_item item qty w)).
Proof.
  destruct w as [s f l]. unfold remove_item, touches_only.
  destruct (as_item item) as [name|] eqn:Hi; [|run; auto].
  run. destruct (py_int qty) as [R|e]; simpl.
  2: { destruct (is_TypeError e || is_ValueError e); simpl; auto. }
  destruct (R <=? 0); simpl; auto.
  destruct s; simpl; auto.
  destruct (dict_get name d) as [cur|] eqn:Hk; simpl; auto.
  unfold py_min. destruct (py_lt_int cur R) as [[|]|e] eqn:Hlt; simpl;
    [| | destruct (is_KeyError e); simpl; auto].
  - rewrite Hlt. simpl. rewrite Hk. simpl.
    destruct (py_sub cur cur) as [new|e]; simpl;
      [| destruct (is_KeyError e); simpl; auto].
    rewrite dict_get_set_eq. simpl.
    destruct (py_eq_zero new); simpl; rewrite dict_get_set_eq; simpl.
    + rewrite dict_del_set. split; auto. right. eauto 10.
    + split; auto. right. eauto 10.
  - rewrite Z.ltb_irrefl. simpl. rewrite Hk. simpl.
    destruct (py_sub cur (PInt R)) as [new|e]; simpl;
      [| destruct (is_KeyError e); simpl; auto].
    rewrite dict_get_set_eq. simpl.
    destruct (py_eq_zero new); simpl; rewrite dict_get_set_eq; simpl.
    + rewrite dict_del_set. split; auto. right. eauto 10.
    + split; auto. right. eauto 10.
Qed.

Lemma add_item_effect item qty w :
  touches_only item w (snd (add_item item qty w)).
Proof.
  destruct (as_item item) as [name|] eqn:Hi.
  2: { rewrite add_item_invalid_item by assumption. apply touches_only_emit. }
  destruct (py_int qty) as [n|e] eqn:Hq.
  2: { destruct (is_TypeError e || is_ValueError e) eqn:He.
       - erewrite add_item_bad_quantity by eassumption. apply touches_only_emit.
       - erewrite add_item_raises by eassumption. apply touches_only_refl. }
  destruct (Z.lt_trichotomy n 0) as [Hn | [-> | Hn]].
  - erewrite add_item_negative by eassumption.
    exact (remove_item_effect item (PInt (Z.abs n))
             (emit INFO (MsgDelegated name (Z.abs n)) w)).
  - erewrite add_item_zero by eassumption. apply touches_only_refl.
  - destruct w as [s f l]. unfold add_item, touches_only. rewrite Hi. run.
    rewrite Hq. destruct (Z.ltb_spec n 0); [lia |].
    destruct (Z.eqb_spec n 0); [lia |]. simpl.
    destruct s; simpl; auto.
    destruct (dict_get name d) as [cur|] eqn:Hk; simpl.
    + destruct (py_add_int cur n) as [new|e]; simpl; auto.
      rewrite dict_get_set_eq. simpl. split; auto. right. eauto 10.
    + rewrite dict_get_set_eq. simpl. split; auto. right. eauto 10.
Qed.

End Paths.

(** ** The operations on the mapping *)

Section Operations.

Context {text : Type}.

Implicit Types (w : world text) (d : dict) (name k : string).
Implicit Types (item qty v : pyval) (f : gmap string (file text)).
Implicit Types (l : list (level * message)).

Lemma as_item_str name : name <> EmptyString -> as_item (PStr name) = Some name.
Proof. destruct name; simpl; congruence. Qed.

Lemma as_item_Some item name :
  as_item item = Some name -> item = PStr name /\ name <> EmptyString.
Proof.
  destruct item; simpl; try discriminate.
  destruct s; [discriminate |]. intros [= <-]. split; congruence.
Qed.

Lemma get_qty_quantity k w : get_qty k w = (quantity k (stock_data w), w).
Proof.
  unfold get_qty, get_default, quantity.
  destruct (stock_data w); auto. now destruct (dict_get k d).
Qed.

(** The log does not influence what [remove_item] does to the rest. *)
Lemma remove_item_log item qty s f l :
  remove_item item qty (World s f l) =
    let '(r, w') := remove_item item qty (World s f []) in
    (r, World (stock_data w') (files w') (l ++ log w')).
Proof.
  unfold remove_item.
  destruct (as_item item) as [name|] eqn:Hi; [|run; auto].
  run. destruct (py_int qty) as [R|e]; simpl.
  2: { destruct (is_TypeError e || is_ValueError e); simpl; now rewrite ?app_nil_r. }
  destruct (R <=? 0); simpl; auto.
  destruct s; simpl; auto.
  destruct (dict_get name d) as [cur|] eqn:Hk; simpl; auto.
  unfold py_min. destruct (py_lt_int cur R) as [[|]|e] eqn:Hlt; simpl;
    [| | destruct (is_KeyError e); simpl; auto].
  - rewrite Hlt. simpl. rewrite Hk. simpl.
    destruct (py_sub cur cur) as [new|e]; simpl;
      [| destruct (is_KeyError e); simpl; now rewrite <- ?app_assoc].
    rewrite dict_get_set_eq. simpl.
    destruct (py_eq_zero new); simpl; rewrite dict_get_set_eq; simpl;
      now rewrite <- ?app_assoc.
  - rewrite Z.ltb_irrefl. simpl. rewrite Hk. simpl.
    destruct (py_sub cur (PInt R)) as [new|e]; simpl;
      [| destruct (is_KeyError e); simpl; now rewrite <- ?app_assoc].
    rewrite dict_get_set_eq. simpl.
    destruct (py_eq_zero new); simpl; rewrite dict_get_set_eq; simpl;
      now rewrite <- ?app_assoc.
Qed.

Lemma low_items_filter threshold d :
  dict_wf d -> int_valued d ->
  low_items threshold d = Returned (List.filter (below threshold d) (keys d)).
Proof.
  unfold dict_wf. induction d as [|[k v] r IH]; [reflexivity |].
  cbn [map fst]. rewrite NoDup_cons. intros [Hk Hr] Hint.
  assert (Hother : forall k', In k' (keys r) ->
            dict_get k' ((k, v) :: r) = dict_get k' r).
  { intros k' Hin. cbn [dict_get].
    destruct (String.eqb k' k) eqn:E; [| reflexivity].
    apply String.eqb_eq in E. subst k'. apply list_elem_of_In in Hin.
    contradiction. }
  assert (Hhead : dict_get k ((k, v) :: r) = Some v).
  { cbn [dict_get]. now rewrite String.eqb_refl. }
  destruct (Hint k v Hhead) as [q ->].
  cbn [low_items py_lt_int as_num keys map fst List.filter].
  rewrite IH; auto.
  - assert (Hb : below threshold ((k, PInt q) :: r) k = (q <? threshold))
      by (unfold below; now rewrite Hhead).
    rewrite Hb. fold (keys r).
    rewrite (filter_ext_in (below threshold ((k, PInt q) :: r)) (below threshold r));
      [reflexivity |].
    intros k' Hin. unfold below. now rewrite Hother.
  - intros k' v' Hget. apply (Hint k' v'). rewrite Hother; auto.
    apply dict_get_In. congruence.
Qed.

Lemma positive_valued_set name z d :
  positive_valued d -> 0 < z -> positive_valued (dict_set name (PInt z) d).
Proof.
  intros Hd Hz k v. destruct (String.eqb_spec name k) as [<- | Hne].
  - rewrite dict_get_set_eq. intros [= <-]. eauto.
  - rewrite dict_get_set_ne by assumption. apply Hd.
Qed.

Lemma positive_valued_del name d :
  positive_valued d -> positive_valued (dict_del name d).
Proof.
  intros Hd k v. destruct (String.eqb_spec name k) as [<- | Hne].
  - now rewrite dict_get_del_eq.
  - rewrite dict_get_del_ne by assumption. apply Hd.
Qed.

Lemma int_valued_set name z d :
  int_valued d -> int_valued (dict_set name (PInt z) d).
Proof.
  intros Hd k v. destruct (String.eqb_spec name k) as [<- | Hne].
  - rewrite dict_get_set_eq. intros [= <-]. now exists z.
  - rewrite dict_get_set_ne by assumption. apply Hd.
Qed.

Lemma int_valued_del name d : int_valued d -> int_valued (dict_del name d).
Proof.
  intros Hd k v. destruct (String.eqb_spec name k) as [<- | Hne].
  - now rewrite dict_get_del_eq.
  - rewrite dict_get_del_ne by assumption. apply Hd.
Qed.

Lemma positive_int_valued d : positive_valued d -> int_valued d.
Proof. intros Hd k v Hk. destruct (Hd k v Hk) as (z & -> & _). now exists z. Qed.

(** On a mapping of integers [remove_item] changes nothing or takes
    [R > 0] from an entry [c], deleting it when nothing is left. *)
Lemma remove_item_on_ints item qty w d :
  stock_data w = PDict d -> int_valued d ->
  stock_data (snd (remove_item item qty w)) = PDict d \/
  exists name c R,
    dict_get name d = Some (PInt c) /\ 0 < R /\
    stock_data (snd (remove_item item qty w)) =
      PDict (if c <=? R then dict_del name d else dict_set name (PInt (c - R)) d).
Proof.
  intros Hd Hint.
  destruct (as_item item) as [name|] eqn:Hi.
  2: { rewrite remove_item_invalid_item by assumption. now left. }
  destruct (py_int qty) as [R|e] eqn:Hq.
  2: { destruct (is_TypeError e || is_ValueError e) eqn:He.
       - erewrite remove_item_bad_quantity by eassumption. now left.
       - erewrite remove_item_raises by eassumption. now left. }
  destruct (Z_le_gt_dec R 0) as [HR|HR].
  { erewrite remove_item_non_positive by eassumption. now left. }
  destruct (dict_get name d) as [v|] eqn:Hk.
  - destruct (Hint name v Hk) as [c ->].
    erewrite remove_item_int by (eauto; lia).
    right. exists name, c, R. repeat split; auto. lia.
  - erewrite remove_item_absent by (eauto; lia). now left.
Qed.

(** On a mapping of integers [add_item] changes nothing, removes as
    [remove_item] does, or assigns [old + n] with [n > 0]. *)
Lemma add_item_on_ints item qty w d :
  stock_data w = PDict d -> int_valued d ->
  stock_data (snd (add_item item qty w)) = PDict d \/
  (exists name c R,
    dict_get name d = Some (PInt c) /\ 0 < R /\
    stock_data (snd (add_item item qty w)) =
      PDict (if c <=? R then dict_del name d else dict_set name (PInt (c - R)) d)) \/
  (exists name old n,
    int_or_absent (dict_get name d) old /\ 0 < n /\
    stock_data (snd (add_item item qty w)) = PDict (dict_set name (PInt (old + n)) d)).
Proof.
  intros Hd Hint.
  destruct (as_item item) as [name|] eqn:Hi.
  2: { rewrite add_item_invalid_item by assumption. now left. }
  destruct (py_int qty) as [n|e] eqn:Hq.
  2: { destruct (is_TypeError e || is_ValueError e) eqn:He.
       - erewrite add_item_bad_quantity by eassumption. now left.
       - erewrite add_item_raises by eassumption. now left. }
  destruct (Z.lt_trichotomy n 0) as [Hn | [-> | Hn]].
  - erewrite add_item_negative by eassumption.
    destruct (remove_item_on_ints item (PInt (Z.abs n))
                (emit INFO (MsgDelegated name (Z.abs n)) w) d Hd Hint)
      as [H | H]; auto.
  - erewrite add_item_zero by eassumption. now left.
  - assert (Hold : exists old, int_or_absent (dict_get name d) old).
    { destruct (dict_get name d) as [v|] eqn:Hk.
      - destruct (Hint name v Hk) as [c ->]. exists c. now left.
      - exists 0. now right. }
    destruct Hold as [old Hold].
    erewrite add_item_int by eauto.
    right. right. exists name, old, n. auto.
Qed.

(** C2. Removing [R > 0] from an item stored with the integer quantity
    [Q]: afterwards [get_qty] reports [max(0, Q - R)], the item is absent
    exactly when that is 0, and an entry that remains holds the positive
    integer [Q - R]. *)
Theorem remove_item_quantity w d name qty Q R :
  name <> EmptyString ->
  stock_data w = PDict d -> dict_get name d = Some (PInt Q) ->
  py_int qty = Returned R -> 0 < R ->
  exists w' d',
    remove_item (PStr name) qty w = (Returned tt, w') /\
    stock_data w' = PDict d' /\
    get_qty name w' = (Returned (PInt (Z.max 0 (Q - R))), w') /\
    (dict_get name d' = None <-> Z.max 0 (Q - R) = 0) /\
    (forall v, dict_get name d' = Some v -> v = PInt (Q - R) /\ 0 < Q - R).
Proof.
  intros Hname Hd Hk Hq HR.
  rewrite (remove_item_int (PStr name) name qty R Q d w)
    by eauto using as_item_str.
  eexists _, _. split; [reflexivity |]. split; [reflexivity |].
  rewrite get_qty_quantity. simpl.
  destruct (Z.leb_spec Q R) as [Hle|Hgt].
  - rewrite dict_get_del_eq. replace (Z.max 0 (Q - R)) with 0 by lia.
    split; [reflexivity |]. split; [tauto | discriminate].
  - rewrite dict_get_set_eq. replace (Z.max 0 (Q - R)) with (Q - R) by lia.
    split; [reflexivity |]. split.
    + split; [discriminate | lia].
    + intros v [= <-]. split; [reflexivity | lia].
Qed.

(** C3. Two adds of non-negative integers to an item that is not yet a
    key: both return normally and [get_qty] then reports [q1 + q2]. *)
Theorem add_item_twice w d name q1 q2 :
  name <> EmptyString ->
  stock_data w = PDict d -> dict_get name d = None ->
  0 <= q1 -> 0 <= q2 ->
  exists w',
    (add_item (PStr name) (PInt q1) ;; add_item (PStr name) (PInt q2))%py w =
      (Returned tt, w') /\
    get_qty name w' = (Returned (PInt (q1 + q2)), w').
Proof.
  intros Hname Hd Hk H1 H2. apply as_item_str in Hname as Hi.
  unfold bind.
  assert (Hfirst : exists w1 d1,
            add_item (PStr name) (PInt q1) w = (Returned tt, w1) /\
            stock_data w1 = PDict d1 /\ int_or_absent (dict_get name d1) q1).
  { destruct (Z.eq_dec q1 0) as [-> | Hq].
    - exists w, d. rewrite (add_item_zero _ name) by auto.
      repeat split; auto. right. auto.
    - eexists _, _.
      rewrite (add_item_int _ name _ q1 0 d) by (auto; try lia; right; auto).
      split; [reflexivity |]. split; [reflexivity |].
      left. now rewrite dict_get_set_eq. }
  destruct Hfirst as (w1 & d1 & -> & Hd1 & Hk1).
  destruct (Z.eq_dec q2 0) as [-> | Hq].
  - exists w1. rewrite (add_item_zero _ name) by auto. split; [reflexivity |].
    rewrite get_qty_quantity, Hd1. simpl.
    destruct Hk1 as [-> | [-> ->]]; repeat f_equal; lia.
  - eexists. rewrite (add_item_int _ name _ q2 q1 d1) by (auto; lia).
    split; [reflexivity |].
    rewrite get_qty_quantity. simpl. now rewrite dict_get_set_eq.
Qed.

(** C4. [add_item(item, -N)] with [N > 0] ends as [remove_item(item, N)]
    does from the same state: the same result, the same [stock_data] and
    the same files (the log of [add_item] has one more record, the note
    that it delegates). *)
Theorem add_negative_is_remove w item N :
  0 < N ->
  fst (add_item item (PInt (- N)) w) = fst (remove_item item (PInt N) w) /\
  stock_data (snd (add_item item (PInt (- N)) w)) =
    stock_data (snd (remove_item item (PInt N) w)) /\
  files (snd (add_item item (PInt (- N)) w)) =
    files (snd (remove_item item (PInt N) w)).
Proof.
  intros HN. destruct (as_item item) as [name|] eqn:Hi.
  - rewrite (add_item_negative item name (PInt (- N)) (- N) w) by (auto; lia).
    replace (Z.abs (- N)) with N by lia.
    destruct w as [s f l]. unfold emit. simpl.
    rewrite (remove_item_log item (PInt N) s f (l ++ _)).
    rewrite (remove_item_log item (PInt N) s f l).
    now destruct (remove_item item (PInt N) (World s f [])).
  - rewrite add_item_invalid_item, remove_item_invalid_item by assumption.
    auto.
Qed.

(** C5, as the code has it.  When [int(qty)] raises [TypeError] or
    [ValueError], [add_item] and [remove_item] return normally having
    emitted one WARNING or ERROR record and changed nothing else.  Text
    with a character that is not white space, a sign, an underscore or a
    decimal digit (non-numeric text, text of a fractional number) is
    such a quantity.  And on a mapping of integers both operations leave
    a mapping of integers. *)
Theorem coercion_failure_no_mutation w item qty :
  (forall e, py_int qty = Raised e -> is_TypeError e || is_ValueError e = true ->
     exists lv m lv' m',
       add_item item qty w = (Returned tt, emit lv m w) /\
       remove_item item qty w = (Returned tt, emit lv' m' w) /\
       (lv = WARNING \/ lv = ERROR) /\ (lv' = WARNING \/ lv' = ERROR)) /\
  (forall s c, qty = PStr s -> In c (list_ascii_of_string s) ->
     IntOfStr.int_char c = false -> py_int qty = Raised ValueError) /\
  (forall d, stock_data w = PDict d -> int_valued d ->
     exists d1 d2,
       stock_data (snd (add_item item qty w)) = PDict d1 /\ int_valued d1 /\
       stock_data (snd (remove_item item qty w)) = PDict d2 /\ int_valued d2).
Proof.
  split; [| split].
  - intros e Hq He. destruct (as_item item) as [name|] eqn:Hi.
    + exists ERROR, (MsgInvalidQuantity name qty), ERROR, (MsgInvalidQuantity name qty).
      erewrite add_item_bad_quantity, remove_item_bad_quantity by eassumption.
      auto.
    + exists WARNING, MsgInvalidItem, WARNING, MsgInvalidItem.
      rewrite add_item_invalid_item, remove_item_invalid_item by assumption.
      auto.
  - intros s c -> Hin Hc. simpl.
    destruct (IntOfStr.parse s) as [z|] eqn:Hp; [| reflexivity].
    rewrite (IntOfStrFacts.parse_chars s z Hp c Hin) in Hc. discriminate.
  - intros d Hd Hint.
    assert (Hremoved : forall name c R,
              int_valued (if c <=? R then dict_del name d
                          else dict_set name (PInt (c - R)) d)).
    { intros name c R. destruct (c <=? R).
      - now apply int_valued_del.
      - now apply int_valued_set. }
    destruct (add_item_on_ints item qty w d Hd Hint)
      as [-> | [(name & c & R & _ & _ & ->) | (name & old & n & _ & _ & ->)]];
    destruct (remove_item_on_ints item qty w d Hd Hint)
      as [-> | (name' & c' & R' & _ & _ & ->)];
    eexists _, _; repeat split; auto using int_valued_set.
Qed.

(** C8. On a mapping of integers [check_low_items] returns the keys whose
    stored quantity is strictly below the threshold, in the order the
    mapping enumerates its keys, and leaves the world as it was; on the
    empty mapping the result is empty. *)
Theorem check_low_items_spec w d threshold :
  stock_data w = PDict d -> dict_wf d -> int_valued d ->
  check_low_items threshold w =
    (Returned (List.filter (below threshold d) (keys d)), w) /\
  (forall k, In k (List.filter (below threshold d) (keys d)) <->
             exists q, dict_get k d = Some (PInt q) /\ q < threshold) /\
  (d = [] -> check_low_items threshold w = (Returned [], w)).
Proof.
  intros Hd Hwf Hint.
  assert (Hrun : check_low_items threshold w =
            (Returned (List.filter (below threshold d) (keys d)), w)).
  { unfold check_low_items. run. rewrite Hd. now rewrite low_items_filter. }
  split; [exact Hrun |]. split.
  - intros k. rewrite filter_In. unfold below. split.
    + intros [_ Hb]. destruct (dict_get k d) as [[]|]; try discriminate.
      exists z. split; [reflexivity |]. now apply Z.ltb_lt.
    + intros (q & Hq & Hlt). split.
      * apply dict_get_In. congruence.
      * rewrite Hq. now apply Z.ltb_lt.
  - intros ->. exact Hrun.
Qed.

(** C9. Removing from an item that is not a key is a no-op on the
    mapping: [remove_item] returns normally, creates no entry and leaves
    [stock_data] and the files as they were; the only trace is one ERROR
    record saying the item was not found. *)
Theorem remove_item_absent_noop w d name qty R :
  name <> EmptyString ->
  stock_data w = PDict d -> dict_get name d = None ->
  py_int qty = Returned R -> 0 < R ->
  exists w',
    remove_item (PStr name) qty w = (Returned tt, w') /\
    stock_data w' = stock_data w /\
    files w' = files w /\
    log w' = log w ++ [(ERROR, MsgNotFound name)].
Proof.
  intros Hname Hd Hk Hq HR.
  exists (emit ERROR (MsgNotFound name) w). split; [| now auto].
  eapply remove_item_absent; eauto using as_item_str.
Qed.

(** C10. [add_item] and [remove_item] leave every other key alone: for a
    key [k] that is not the item, [get_qty k] gives the same answer after
    the call as before, in every state and whatever the call does. *)
Theorem other_keys_unchanged w item qty k :
  item <> PStr k ->
  fst (get_qty k (snd (add_item item qty w))) = fst (get_qty k w) /\
  fst (get_qty k (snd (remove_item item qty w))) = fst (get_qty k w).
Proof.
  intros Hne.
  assert (frame : forall w', touches_only item w w' ->
            quantity k (stock_data w') = quantity k (stock_data w)).
  { intros w' [_ [-> | (name & d & Hi & Hd & Hw')]]; [reflexivity |].
    apply as_item_Some in Hi as [-> Hname].
    assert (name <> k) by congruence.
    rewrite Hd. destruct Hw' as [[v ->] | ->]; simpl.
    - now rewrite dict_get_set_ne.
    - now rewrite dict_get_del_ne. }
  rewrite !get_qty_quantity. simpl.
  split; apply frame; [apply add_item_effect | apply remove_item_effect].
Qed.

End Operations.

(** ** Loading and saving *)

Section Persistence.

Context {text : Type}.
Variable json_load : text -> option pyval.
Variable json_dump : pyval -> text.

Implicit Types (w : world text) (d : dict) (name k : string).
Implicit Types (item qty v : pyval) (f : gmap string (file text)).

Lemma load_data_stock file_path w :
  stock_data (snd (load_data json_load file_path w)) =
    match document json_load file_path w with
    | Some doc => doc
    | None => PDict []
    end.
Proof.
  destruct w as [s f l]. unfold load_data, read_file, decode, document. run.
  destruct (f !! file_path) as [[t|e]|]; simpl.
  - now destruct (json_load t).
  - now destruct (is_FileNotFoundError e), (is_JSONDecodeError e).
  - reflexivity.
Qed.

Lemma save_data_stock file_path w :
  stock_data (snd (save_data json_dump file_path w)) = stock_data w.
Proof.
  destruct w as [s f l]. unfold save_data, write_file. run.
  now destruct (f !! file_path) as [[t|e]|].
Qed.

(** C1, as the code has it.  From a state that satisfies the invariant
    (every stored value is a positive integer), [add_item], [remove_item]
    and [save_data] lead to a state that satisfies it, for every
    argument.  [load_data] installs the empty mapping when the file is
    missing, unreadable or not valid JSON, and otherwise the decoded
    object as it is: the invariant holds after it exactly when that
    object satisfies it.  Under the invariant a key is absent exactly
    when [get_qty] reports 0. *)
Theorem stock_invariant_preserved w :
  stock_invariant (stock_data w) ->
  (forall item qty, stock_invariant (stock_data (snd (add_item item qty w)))) /\
  (forall item qty, stock_invariant (stock_data (snd (remove_item item qty w)))) /\
  (forall file_path,
     stock_invariant (stock_data (snd (save_data json_dump file_path w)))) /\
  (forall file_path,
     stock_invariant (stock_data (snd (load_data json_load file_path w))) <->
     match document json_load file_path w with
     | Some doc => stock_invariant doc
     | None => True
     end) /\
  (forall k d, stock_data w = PDict d ->
     (dict_get k d = None <-> fst (get_qty k w) = Returned (PInt 0))).
Proof.
  intros (d & Hd & Hpos).
  pose proof (positive_int_valued d Hpos) as Hint.
  assert (Hremoved : forall name c R,
            dict_get name d = Some (PInt c) -> 0 < R ->
            positive_valued (if c <=? R then dict_del name d
                             else dict_set name (PInt (c - R)) d)).
  { intros name c R Hk HR. destruct (Z.leb_spec c R).
    - now apply positive_valued_del.
    - apply positive_valued_set; [assumption | lia]. }
  split; [| split; [| split; [| split]]].
  - intros item qty.
    destruct (add_item_on_ints item qty w d Hd Hint)
      as [-> | [(name & c & R & Hk & HR & ->) | (name & old & n & Hold & Hn & ->)]].
    + now exists d.
    + eexists. split; [reflexivity |]. now apply Hremoved.
    + eexists. split; [reflexivity |]. apply positive_valued_set; [assumption |].
      destruct Hold as [Hk | [_ ->]]; [| lia].
      destruct (Hpos name _ Hk) as (z & [= <-] & Hz). lia.
  - intros item qty.
    destruct (remove_item_on_ints item qty w d Hd Hint)
      as [-> | (name & c & R & Hk & HR & ->)].
    + now exists d.
    + eexists. split; [reflexivity |]. now apply Hremoved.
  - intros file_path. rewrite save_data_stock. now exists d.
  - intros file_path. rewrite load_data_stock.
    destruct (document json_load file_path w); [reflexivity |].
    split; [trivial | intros _]. exists []. split; [reflexivity |].
    intros k v. discriminate.
  - intros k d' Hd'. rewrite get_qty_quantity, Hd'. simpl.
    assert (d' = d) as -> by congruence.
    destruct (dict_get k d) as [v|] eqn:Hk.
    + split; [discriminate |]. intros [= ->].
      destruct (Hpos k _ Hk) as (z & [= <-] & Hz). lia.
    + tauto.
Qed.


(** C7, as the code has it.  [load_data] always returns normally and
    never touches the files.  A missing file, a file that is not valid
    JSON and a file that cannot be read each leave the empty mapping,
    which satisfies the invariant of the data model.  A file that
    decodes leaves the decoded object, whatever it is. *)
Theorem load_data_total w file_path :
  exists w',
    load_data json_load file_path w = (Returned tt, w') /\
    files w' = files w /\
    (files w !! file_path = None -> stock_data w' = PDict []) /\
    (forall t, files w !! file_path = Some (Regular t) -> json_load t = None ->
               stock_data w' = PDict []) /\
    (forall e, files w !! file_path = Some (Faulty e) -> stock_data w' = PDict []) /\
    (forall t doc, files w !! file_path = Some (Regular t) ->
                   json_load t = Some doc -> stock_data w' = doc) /\
    (document json_load file_path w = None -> stock_invariant (stock_data w')).
Proof.
  assert (Hempty : stock_invariant (PDict [])).
  { exists []. split; [reflexivity |]. intros k v. discriminate. }
  destruct w as [s f l]. unfold load_data, read_file, decode, document. run.
  destruct (f !! file_path) as [[t|e]|] eqn:Hf; simpl.
  - destruct (json_load t) as [doc|] eqn:Ht; simpl;
      (eexists; split; [reflexivity |]); simpl;
      repeat split; try congruence; try discriminate; auto.
  - destruct (is_FileNotFoundError e), (is_JSONDecodeError e); simpl;
      (eexists; split; [reflexivity |]); simpl;
      repeat split; try congruence; try discriminate; auto.
  - eexists; split; [reflexivity |]; simpl;
      repeat split; try congruence; try discriminate; auto.
Qed.

End Persistence.

(** ** The report *)

Section Report.

Context {text : Type}.

Implicit Types (w : world text) (d : dict) (name : string).

Lemma string_compare_refl s : String.compare s s = Eq.
Proof.
  induction s as [|a r IH]; simpl; [reflexivity |].
  unfold Ascii.compare. now rewrite N.compare_refl.
Qed.

Lemma string_compare_lt_trans s1 : forall s2 s3,
  String.compare s1 s2 = Lt -> String.compare s2 s3 = Lt ->
  String.compare s1 s3 = Lt.
Proof.
  induction s1 as [|a1 r1 IH]; intros [|a2 r2] [|a3 r3]; simpl;
    try discriminate; auto.
  unfold Ascii.compare.
  destruct (N.compare_spec (N_of_ascii a1) (N_of_ascii a2)) as [E12|L12|G12];
    try discriminate;
    destruct (N.compare_spec (N_of_ascii a2) (N_of_ascii a3)) as [E23|L23|G23];
    try discriminate; intros H12 H23.
  - rewrite E12, E23, N.compare_refl. eauto.
  - now rewrite E12, (proj2 (N.compare_lt_iff _ _) L23).
  - now rewrite <- E23, (proj2 (N.compare_lt_iff _ _) L12).
  - now rewrite (proj2 (N.compare_lt_iff _ _) (N.lt_trans _ _ _ L12 L23)).
Qed.

Lemma string_leb_trans s1 s2 s3 :
  String.leb s1 s2 = true -> String.leb s2 s3 = true -> String.leb s1 s3 = true.
Proof.
  unfold String.leb.
  destruct (String.compare s1 s2) eqn:H12; try discriminate;
    destruct (String.compare s2 s3) eqn:H23; try discriminate; intros _ _.
  - apply String.compare_eq_iff in H12, H23. subst.
    now rewrite string_compare_refl.
  - apply String.compare_eq_iff in H12. subst. now rewrite H23.
  - apply String.compare_eq_iff in H23. subst. now rewrite H12.
  - now rewrite (string_compare_lt_trans s1 s2 s3).
Qed.

#[local] Instance entry_le_trans : Transitive entry_le.
Proof. intros a b c. apply string_leb_trans. Qed.

#[local] Instance entry_le_total : Total entry_le.
Proof. intros a b. apply String.leb_total. Qed.

Lemma length_spaces n : String.length (spaces n) = n.
Proof. induction n; simpl; auto. Qed.

Lemma length_append s1 s2 :
  String.length (String.append s1 s2) = (String.length s1 + String.length s2)%nat.
Proof. induction s1; simpl; auto. Qed.

Lemma length_ljust s width :
  String.length (ljust s width) = Nat.max (String.length s) width.
Proof. unfold ljust. rewrite length_append, length_spaces. lia. Qed.

Lemma longest_bound names name :
  In name names -> (String.length name <= longest names)%nat.
Proof.
  induction names as [|n r IH]; simpl; [tauto |].
  intros [-> | H]; [lia |]. specialize (IH H). lia.
Qed.

Lemma longest_reached names :
  names <> [] -> exists name, In name names /\ String.length name = longest names.
Proof.
  induction names as [|n r IH]; [congruence | intros _].
  destruct r as [|n' r'].
  - exists n. simpl. split; [auto | lia].
  - destruct IH as (m & Hm & Hlen); [congruence |].
    simpl in *. destruct (Nat.max_spec (String.length n)
      (Nat.max (String.length n') (longest r'))) as [[_ ->] | [_ ->]].
    + exists m. auto.
    + exists n. auto.
Qed.

(** The lengths of the keys of a dictionary, as [print_data] takes
    their maximum. *)
Lemma max_len_of_keys d :
  max_len_of (map (fun kv => PStr (fst kv)) d) = Returned (longest (keys d)).
Proof.
  induction d as [|[k v] r IH]; simpl; [reflexivity |]. now rewrite IH.
Qed.

Lemma max_len_of_raises it e : max_len_of it = Raised e -> e = TypeError.
Proof.
  induction it as [|i r IH]; simpl; [discriminate |].
  destruct i; simpl; try (intros [= <-]; reflexivity);
    destruct (max_len_of r); try discriminate; intros [= <-]; auto.
Qed.

Lemma print_data_dict w d :
  stock_data w = PDict d -> d <> [] ->
  print_data w =
    (Returned tt,
     PrintText report_header ::
     map (report_row (longest (keys d))) (sorted d) ++ [PrintText report_footer]).
Proof.
  intros Hd Hne. unfold print_data. rewrite Hd. simpl.
  destruct d as [|e r]; [congruence |]. cbn [negb].
  now rewrite max_len_of_keys.
Qed.

(** On a mapping [print_data] returns normally.  For the empty mapping
    it prints the header and the notice that the inventory is empty.
    Otherwise it prints the header, one row for each entry and the
    footer: the rows are the entries of the mapping, each once, in
    ascending order of item name, each with its stored quantity. *)
Theorem print_data_report w d :
  stock_data w = PDict d ->
  exists rows,
    print_data w =
      (Returned tt,
       match d with
       | [] => [PrintText report_header; PrintText report_empty]
       | _ => PrintText report_header ::
              map (report_row (longest (keys d))) rows ++
              [PrintText report_footer]
       end) /\
    Permutation rows d /\
    StronglySorted entry_le rows.
Proof.
  intros Hd. exists (sorted d). split; [| split].
  - destruct d as [|e r] eqn:E.
    + unfold print_data. now rewrite Hd.
    + rewrite <- E in *. apply print_data_dict; [assumption | congruence].
  - apply merge_sort_Permutation.
  - apply (StronglySorted_merge_sort entry_le).
Qed.

(** The name column of the report is aligned: every row shows an item
    name of the mapping followed by spaces only, with its quantity, and
    all the padded names have the same length, that of the longest item
    name. *)
Theorem print_data_aligned w d padded qty :
  stock_data w = PDict d ->
  In (PrintRow padded qty) (snd (print_data w)) ->
  String.length padded = longest (keys d) /\
  (exists name, In name (keys d) /\ String.length name = longest (keys d)) /\
  exists name pad,
    In (name, qty) d /\ padded = String.append name (spaces pad).
Proof.
  intros Hd Hin.
  destruct d as [|e r] eqn:E.
  { unfold print_data in Hin. rewrite Hd in Hin. simpl in Hin.
    destruct Hin as [H | [H | []]]; discriminate. }
  rewrite <- E in *. assert (Hne : d <> []) by congruence.
  rewrite (print_data_dict w d Hd Hne) in Hin. simpl in Hin.
  destruct Hin as [H | Hin]; [discriminate |].
  apply in_app_or in Hin as [Hin | [H | []]]; [| discriminate].
  apply in_map_iff in Hin as ([name q] & Hrow & Hin).
  injection Hrow as <- <-. simpl.
  assert (Hd' : In (name, q) d).
  { apply list_elem_of_In. rewrite <- (merge_sort_Permutation entry_le d).
    now apply list_elem_of_In. }
  assert (Hk : In name (keys d)) by (apply in_map_iff; now exists (name, q)).
  split; [| split].
  - rewrite length_ljust. pose proof (longest_bound _ _ Hk). lia.
  - apply longest_reached. intros Hnil. rewrite Hnil in Hk. destruct Hk.
  - exists name, (longest (keys d) - String.length name)%nat. auto.
Qed.

(** [print_data] returns normally exactly when [stock_data] is falsy or
    a dictionary; on any other object (one a file can decode to) it
    raises after printing the header alone. *)
Theorem print_data_raises w :
  (fst (print_data w) = Returned tt <->
   truthy (stock_data w) = false \/ exists d, stock_data w = PDict d) /\
  (fst (print_data w) <> Returned tt ->
   snd (print_data w) = [PrintText report_header] /\
   (fst (print_data w) = Raised TypeError \/
    fst (print_data w) = Raised AttributeError)).
Proof.
  unfold print_data.
  destruct (truthy (stock_data w)) eqn:Ht; simpl.
  2: { split; [tauto | congruence]. }
  destruct (stock_data w) as [| b | z | x | s | l | d] eqn:Hs; simpl in *;
    try discriminate;
    try (split; [split; [discriminate | intros [H | [d' H]]; discriminate]
                | auto]).
  - destruct (max_len_of _) as [n | e] eqn:Hm; simpl;
      [| apply max_len_of_raises in Hm as ->];
      (split; [split; [discriminate | intros [H | [d' H]]; discriminate] | auto]).
  - destruct (max_len_of l) as [n | e] eqn:Hm; simpl;
      [| apply max_len_of_raises in Hm as ->];
      (split; [split; [discriminate | intros [H | [d' H]]; discriminate] | auto]).
  - rewrite max_len_of_keys. simpl. split; [| congruence].
    split; eauto.
Qed.

End Report.

(** ** Every way through [remove_item] and [add_item] *)

Section OutcomeLemmas.

Context {text : Type}.

Implicit Types (w : world text) (d : dict) (name k : string).
Implicit Types (item qty v : pyval) (l : list (level * message)).

Lemma remove_item_outcome item qty w :
  removal_outcome item qty w (fst (remove_item item qty w)) (snd (remove_item item qty w)).
Proof.
  destruct w as [s f l]. unfold remove_item, removal_outcome.
  destruct (as_item item) as [name|] eqn:Hi.
  2: { right; left. eexists. run. repeat split; try discriminate. }
  run. destruct (py_int qty) as [R|e] eqn:Hq; simpl.
  2: { destruct (is_TypeError e || is_ValueError e) eqn:He; simpl.
       - right; left. eexists. repeat split; try discriminate.
       - left. exists e. repeat split; auto; discriminate. }
  destruct (Z.leb_spec R 0) as [HR|HR]; simpl.
  { right; left. eexists. repeat split; try discriminate. }
  assert (Hnoop : forall m, exists l0, Returned tt = Returned tt /\ l0 <> [] /\
            World s f (l ++ [(ERROR, m)]) = World s f (l ++ l0)).
  { intros m. eexists. repeat split; try discriminate. }
  destruct s; simpl; try (right; left; apply Hnoop).
  destruct (dict_get name d) as [cur|] eqn:Hk; simpl;
    [| right; left; apply Hnoop].
  unfold py_min. destruct (py_lt_int cur R) as [[|]|e] eqn:Hlt; simpl;
    [| | destruct (is_KeyError e); simpl; right; left; apply Hnoop].
  - rewrite Hlt. simpl. rewrite Hk. simpl.
    destruct (py_sub cur cur) as [new|e]; simpl.
    2: { destruct (is_KeyError e); simpl; right; left;
         eexists; rewrite <- app_assoc; repeat split; try discriminate. }
    rewrite dict_get_set_eq. simpl.
    right; right. exists name, d, cur, R, new.
    assert (Hnum : as_num cur <> None).
    { unfold py_lt_int in Hlt. destruct (as_num cur); congruence. }
    destruct (py_eq_zero new); simpl; rewrite dict_get_set_eq; simpl;
      rewrite ?dict_del_set, <- app_assoc;
      eexists; repeat split; eauto; eexists [_], _; reflexivity.
  - rewrite Z.ltb_irrefl. simpl. rewrite Hk. simpl.
    destruct (py_sub cur (PInt R)) as [new|e]; simpl.
    2: { destruct (is_KeyError e); simpl; right; left; apply Hnoop. }
    rewrite dict_get_set_eq. simpl.
    right; right. exists name, d, cur, R, new.
    assert (Hnum : as_num cur <> None).
    { unfold py_lt_int in Hlt. destruct (as_num cur); congruence. }
    destruct (py_eq_zero new); simpl; rewrite dict_get_set_eq; simpl;
      rewrite ?dict_del_set;
      eexists; repeat split; eauto; exists []; eexists; simpl; reflexivity.
Qed.

Lemma add_item_outcome item qty w :
  addition_outcome item qty w (fst (add_item item qty w)) (snd (add_item item qty w)).
Proof.
  unfold addition_outcome.
  destruct (as_item item) as [name|] eqn:Hi.
  2: { rewrite add_item_invalid_item by assumption. right; left. now eexists. }
  destruct (py_int qty) as [n|e] eqn:Hq.
  2: { destruct (is_TypeError e || is_ValueError e) eqn:He.
       - erewrite add_item_bad_quantity by eassumption. right; left. now eexists.
       - erewrite add_item_raises by eassumption. left. exists e.
         repeat split; auto; discriminate. }
  destruct (Z.lt_trichotomy n 0) as [Hn | [-> | Hn]].
  - erewrite add_item_negative by eassumption.
    destruct (remove_item_outcome item (PInt (Z.abs n))
                (emit INFO (MsgDelegated name (Z.abs n)) w))
      as [(e & _ & _ & He & _) | [(l & -> & _ & ->) |
          (name' & d & cur & R & new & l & -> & Hi' & _ & _ & Hd & Hk & Hnum & -> & Hl)]].
    + discriminate.
    + right; left. eexists. split; [reflexivity |]. unfold emit. simpl.
      now rewrite <- app_assoc.
    + right; right; left.
      exists name, d, cur, n, new, ((INFO, MsgDelegated name (Z.abs n)) :: l).
      assert (name' = name) as -> by congruence.
      repeat split; auto.
      * unfold emit. simpl. now rewrite <- app_assoc.
      * destruct Hl as (l0 & m & ->). eexists (_ :: l0), m. reflexivity.
  - erewrite add_item_zero by eassumption. right; left. exists [].
    destruct w. simpl. now rewrite app_nil_r.
  - destruct w as [s f l]. unfold add_item. rewrite Hi. run. rewrite Hq.
    destruct (Z.ltb_spec n 0); [lia |].
    destruct (Z.eqb_spec n 0); [lia |]. simpl.
    destruct s as [| b | z | x | s0 | l0 | d]; simpl;
      try (left; exists AttributeError;
           split; [reflexivity |]; split; [reflexivity |]; split; [discriminate |];
           right; exists n; split; [reflexivity |]; split; [assumption |];
           left; split; [reflexivity | intros ?; discriminate]).
    unfold entry_or_zero.
    destruct (dict_get name d) as [cur|] eqn:Hk; simpl.
    + destruct (py_add_int cur n) as [new|e] eqn:Ha; simpl.
      * rewrite dict_get_set_eq. simpl. right; right; right.
        exists name, d, n, new. rewrite Hk. auto 10.
      * left. exists e.
        split; [reflexivity |]. split; [reflexivity |]. split; [discriminate |].
        right. exists n. split; [reflexivity |]. split; [assumption |].
        right. exists name, d. rewrite Hk. auto.
    + rewrite dict_get_set_eq. simpl. right; right; right.
      exists name, d, n, (PInt n). rewrite Hk. auto 10.
Qed.

End OutcomeLemmas.

(** ** More about the operations *)

Section More.

Context {text : Type}.

Implicit Types (w : world text) (d : dict) (name k : string).
Implicit Types (item qty v : pyval) (l : list (level * message)).

Local Open Scope py_scope.

Lemma dict_set_set k v1 v2 d : dict_set k v2 (dict_set k v1 d) = dict_set k v2 d.
Proof.
  induction d as [|[k' v'] r IH]; simpl.
  - now rewrite String.eqb_refl.
  - destruct (String.eqb k k') eqn:E; simpl; rewrite E; [reflexivity |].
    now rewrite IH.
Qed.

Lemma dict_set_same k v d : dict_get k d = Some v -> dict_set k v d = d.
Proof.
  induction d as [|[k' v'] r IH]; simpl; [discriminate |].
  destruct (String.eqb k k') eqn:E.
  - now intros [= ->].
  - intros H. now rewrite IH.
Qed.

(** A quantity counts through the integer [int] makes of it: text, a
    boolean or a float is handled exactly as that integer. *)
Theorem quantity_as_coerced item qty n w :
  py_int qty = Returned n ->
  add_item item qty w = add_item item (PInt n) w /\
  remove_item item qty w = remove_item item (PInt n) w.
Proof.
  intros Hq. split.
  - unfold add_item. destruct (as_item item) as [name|]; [| reflexivity].
    run. now rewrite Hq.
  - unfold remove_item. destruct (as_item item) as [name|]; [| reflexivity].
    run. rewrite Hq. simpl. now destruct (n <=? 0).
Qed.

(** Adding a quantity that coerces to zero changes nothing: the call
    returns normally with the mapping and the files as they were, and for
    a valid item no record is emitted either. *)
Theorem add_item_zero_noop item qty w :
  py_int qty = Returned 0 ->
  fst (add_item item qty w) = Returned tt /\
  stock_data (snd (add_item item qty w)) = stock_data w /\
  files (snd (add_item item qty w)) = files w /\
  (as_item item <> None -> snd (add_item item qty w) = w).
Proof.
  intros Hq. destruct (as_item item) as [name|] eqn:Hi.
  - rewrite (add_item_zero item name qty w Hi Hq). auto.
  - rewrite add_item_invalid_item by assumption. simpl. repeat split; congruence.
Qed.

(** The mapping changes only on a valid request: [add_item] only for a
    valid item name and a quantity that coerces to a non-zero integer,
    [remove_item] only for a valid item name that is a key of the
    mapping and a quantity that coerces to a positive integer. *)
Theorem only_valid_requests_change_the_mapping item qty w :
  (stock_data (snd (add_item item qty w)) <> stock_data w ->
   exists name n, as_item item = Some name /\ py_int qty = Returned n /\ n <> 0) /\
  (stock_data (snd (remove_item item qty w)) <> stock_data w ->
   exists name R d,
     as_item item = Some name /\ py_int qty = Returned R /\ 0 < R /\
     stock_data w = PDict d /\ dict_get name d <> None).
Proof.
  split; intros Hne.
  - destruct (add_item_outcome item qty w)
      as [(e & _ & Hw & _) | [(l & _ & Hw) |
          [(name & d & cur & n & new & l & _ & Hi & Hq & Hn & _) |
           (name & d & n & new & _ & Hi & Hq & Hn & _)]]].
    + rewrite Hw in Hne. congruence.
    + rewrite Hw in Hne. simpl in Hne. congruence.
    + exists name, n. repeat split; auto. lia.
    + exists name, n. repeat split; auto. lia.
  - destruct (remove_item_outcome item qty w)
      as [(e & _ & Hw & _) | [(l & _ & _ & Hw) |
          (name & d & cur & R & new & l & _ & Hi & Hq & HR & Hd & Hk & _)]].
    + rewrite Hw in Hne. congruence.
    + rewrite Hw in Hne. simpl in Hne. congruence.
    + exists name, R, d. repeat split; auto. congruence.
Qed.

(** The [except] clause around [int(qty)] names [TypeError] and
    [ValueError] only.  When [int(qty)] raises another exception (an
    infinite float makes it raise [OverflowError]), [add_item] and
    [remove_item] both raise it to their caller for a valid item name,
    and nothing has been changed or logged. *)
Theorem uncaught_coercion_error_escapes item name qty e w :
  as_item item = Some name ->
  py_int qty = Raised e -> is_TypeError e || is_ValueError e = false ->
  add_item item qty w = (Raised e, w) /\
  remove_item item qty w = (Raised e, w).
Proof.
  intros Hi Hq He. split.
  - unfold add_item. rewrite Hi. run. now rewrite Hq, He.
  - unfold remove_item. rewrite Hi. run. now rewrite Hq, He.
Qed.

(** The addition on line 87 stands outside every [try].  For a valid
    item name and a quantity that coerces to a positive integer,
    [add_item] raises [AttributeError] when [stock_data] is not a
    dictionary (it has no method [get]) and [TypeError] when the value
    stored for the item is not a number; in both cases nothing has been
    changed or logged. *)
Theorem add_item_unguarded_addition item name qty n w :
  as_item item = Some name -> py_int qty = Returned n -> 0 < n ->
  ((forall d, stock_data w <> PDict d) ->
   add_item item qty w = (Raised AttributeError, w)) /\
  (forall d v, stock_data w = PDict d -> dict_get name d = Some v ->
     is_number v = false ->
     add_item item qty w = (Raised TypeError, w)).
Proof.
  intros Hi Hq Hn. unfold add_item. rewrite Hi. run. rewrite Hq. simpl.
  destruct (Z.ltb_spec n 0) as [? | _]; [lia |].
  destruct (Z.eqb_spec n 0) as [? | _]; [lia |].
  unfold get_default. split.
  - intros Hs. destruct w as [s f l]. simpl in *.
    destruct s; try reflexivity. now destruct (Hs d).
  - intros d v Hd Hk Hv. destruct w as [s f l]. simpl in *. subst s.
    rewrite Hk. simpl. unfold is_number in Hv. unfold py_add_int.
    now destruct (as_num v).
Qed.

End More.

(** ** How the operations compose *)

Section Composition.

Context {text : Type}.

Implicit Types (w : world text) (d : dict) (name k : string).
Implicit Types (item qty v : pyval).

Local Open Scope py_scope.

(** The mapping after removing [R > 0] from an integer entry or from no
    entry. *)
Lemma remove_item_stock name R d w :
  name <> EmptyString -> 0 < R -> stock_data w = PDict d -> int_entry name d ->
  exists w',
    remove_item (PStr name) (PInt R) w = (Returned tt, w') /\
    files w' = files w /\
    stock_data w' =
      PDict (match dict_get name d with
             | Some (PInt c) =>
                 if c <=? R then dict_del name d else dict_set name (PInt (c - R)) d
             | _ => d
             end).
Proof.
  intros Hname HR Hd Hk. apply as_item_str in Hname as Hi.
  destruct Hk as [Hk | [c Hk]]; rewrite Hk.
  - rewrite (remove_item_absent _ name _ R d w) by auto.
    eexists. split; [reflexivity |]. auto.
  - rewrite (remove_item_int _ name _ R c d w) by auto.
    eexists. split; [reflexivity |]. auto.
Qed.

(** The mapping after adding [n > 0] to an integer entry or to no entry. *)
Lemma add_item_stock name n d w :
  name <> EmptyString -> 0 < n -> stock_data w = PDict d -> int_entry name d ->
  exists w',
    add_item (PStr name) (PInt n) w = (Returned tt, w') /\
    files w' = files w /\
    stock_data w' =
      PDict (dict_set name
               (PInt (match dict_get name d with Some (PInt c) => c + n | _ => n end)) d).
Proof.
  intros Hname Hn Hd Hk. apply as_item_str in Hname as Hi.
  destruct Hk as [Hk | [c Hk]]; rewrite Hk.
  - rewrite (add_item_int _ name _ n 0 d w) by (auto; right; auto).
    eexists. split; [reflexivity |]. auto.
  - rewrite (add_item_int _ name _ n c d w) by (auto; left; auto).
    eexists. split; [reflexivity |]. auto.
Qed.

(** Adding a positive amount to an item and removing the same amount
    gives back the mapping as it was, entries and order, when the item
    was not a key or held a positive integer. *)
Theorem add_then_remove_restores w d name n :
  name <> EmptyString -> 0 < n -> stock_data w = PDict d ->
  (dict_get name d = None \/ exists c, dict_get name d = Some (PInt c) /\ 0 < c) ->
  fst ((add_item (PStr name) (PInt n) ;; remove_item (PStr name) (PInt n)) w) =
    Returned tt /\
  stock_data
    (snd ((add_item (PStr name) (PInt n) ;; remove_item (PStr name) (PInt n)) w)) =
    PDict d.
Proof.
  intros Hname Hn Hd Hk. unfold bind.
  assert (Hint : int_entry name d).
  { destruct Hk as [Hk | (c & Hk & _)]; [now left | right; eauto]. }
  destruct (add_item_stock name n d w Hname Hn Hd Hint) as (w1 & -> & _ & Hd1).
  destruct (remove_item_stock name n _ w1 Hname Hn Hd1) as (w2 & Hrun & _ & Hd2).
  { right. rewrite dict_get_set_eq. eauto. }
  rewrite Hrun. simpl. split; [reflexivity |]. rewrite Hd2. f_equal.
  rewrite dict_get_set_eq.
  destruct Hk as [Hk | (c & Hk & Hc)]; rewrite Hk.
  - rewrite Z.leb_refl, dict_del_set. now apply dict_del_absent.
  - destruct (Z.leb_spec (c + n) n); [lia |].
    rewrite dict_set_set. replace (c + n - n) with c by lia.
    now apply dict_set_same.
Qed.

(** Two removals in a row leave the mapping that one removal of the sum
    leaves. *)
Theorem remove_remove_merges w d name a b :
  name <> EmptyString -> 0 < a -> 0 < b ->
  stock_data w = PDict d -> int_entry name d ->
  stock_data
    (snd ((remove_item (PStr name) (PInt a) ;; remove_item (PStr name) (PInt b)) w)) =
    stock_data (snd (remove_item (PStr name) (PInt (a + b)) w)).
Proof.
  intros Hname Ha Hb Hd Hk. unfold bind.
  destruct (remove_item_stock name (a + b) d w Hname ltac:(lia) Hd Hk)
    as (w3 & -> & _ & Hd3).
  destruct (remove_item_stock name a d w Hname Ha Hd Hk) as (w1 & -> & _ & Hd1).
  simpl. rewrite Hd3.
  destruct Hk as [Hk | [c Hk]]; rewrite Hk in *.
  - destruct (remove_item_stock name b d w1 Hname Hb Hd1) as (w2 & -> & _ & Hd2);
      [now left |]. simpl. rewrite Hd2. now rewrite Hk.
  - destruct (Z.leb_spec c a).
    + destruct (remove_item_stock name b _ w1 Hname Hb Hd1) as (w2 & -> & _ & Hd2).
      { left. apply dict_get_del_eq. }
      simpl. rewrite Hd2, dict_get_del_eq.
      destruct (Z.leb_spec c (a + b)); [auto | lia].
    + destruct (remove_item_stock name b _ w1 Hname Hb Hd1) as (w2 & -> & _ & Hd2).
      { right. rewrite dict_get_set_eq. eauto. }
      simpl. rewrite Hd2, dict_get_set_eq.
      destruct (Z.leb_spec (c - a) b), (Z.leb_spec c (a + b)); try lia.
      * now rewrite dict_del_set.
      * rewrite dict_set_set. do 3 f_equal. lia.
Qed.

(** Two additions of non-negative integers in a row leave the mapping
    that one addition of the sum leaves, also for an item that is
    already stored with an integer. *)
Theorem add_add_merges w d name a b :
  name <> EmptyString -> 0 <= a -> 0 <= b ->
  stock_data w = PDict d -> int_entry name d ->
  stock_data
    (snd ((add_item (PStr name) (PInt a) ;; add_item (PStr name) (PInt b)) w)) =
    stock_data (snd (add_item (PStr name) (PInt (a + b)) w)).
Proof.
  intros Hname Ha Hb Hd Hk. unfold bind. apply as_item_str in Hname as Hi.
  destruct (Z.eq_dec a 0) as [-> | Ha0].
  { rewrite (add_item_zero _ name (PInt 0) w) by auto. reflexivity. }
  destruct (add_item_stock name a d w Hname ltac:(lia) Hd Hk) as (w1 & -> & _ & Hd1).
  destruct (add_item_stock name (a + b) d w Hname ltac:(lia) Hd Hk)
    as (w3 & -> & _ & Hd3).
  simpl. rewrite Hd3.
  destruct (Z.eq_dec b 0) as [-> | Hb0].
  { rewrite (add_item_zero _ name (PInt 0) w1) by auto. simpl.
    rewrite Hd1, Z.add_0_r. reflexivity. }
  destruct (add_item_stock name b _ w1 Hname ltac:(lia) Hd1) as (w2 & -> & _ & Hd2).
  { right. rewrite dict_get_set_eq. eauto. }
  simpl. rewrite Hd2, dict_get_set_eq, dict_set_set.
  destruct Hk as [Hk | [c Hk]]; rewrite Hk; do 3 f_equal; lia.
Qed.

(** Neither operation reorders the keys.  [add_item] leaves the keys as
    they are, appends the item as a new last key, or (on a negative
    quantity) takes the item out; [remove_item] leaves the keys as they
    are or takes the item out.  A key that is added is a valid item
    name, and [remove_item] never adds one. *)
Theorem keys_after_update w d item qty :
  stock_data w = PDict d ->
  (exists d', stock_data (snd (add_item item qty w)) = PDict d' /\
     (keys d' = keys d \/
      (exists name, as_item item = Some name /\ ~ In name (keys d) /\
                    keys d' = keys d ++ [name]) \/
      (exists name, as_item item = Some name /\
                    keys d' = List.filter (fun k => negb (String.eqb name k)) (keys d)))) /\
  (exists d', stock_data (snd (remove_item item qty w)) = PDict d' /\
     (keys d' = keys d \/
      (exists name, as_item item = Some name /\
                    keys d' = List.filter (fun k => negb (String.eqb name k)) (keys d)))).
Proof.
  intros Hd. split.
  - destruct (add_item_outcome item qty w)
      as [(e & _ & -> & _) | [(l & _ & ->) |
          [(name & d0 & cur & n & new & l & _ & Hi & _ & _ & Hd0 & Hk & _ & -> & _) |
           (name & d0 & n & new & _ & Hi & _ & _ & Hd0 & _ & ->)]]]; simpl.
    + eauto.
    + eauto.
    + assert (d0 = d) as -> by congruence. eexists. split; [reflexivity |].
      destruct (py_eq_zero new).
      * right; right. exists name. split; [assumption | apply keys_dict_del].
      * left. apply keys_dict_set_present. congruence.
    + assert (d0 = d) as -> by congruence. eexists. split; [reflexivity |].
      destruct (dict_get name d) eqn:Hk.
      * left. apply keys_dict_set_present. congruence.
      * right; left. exists name. split; [assumption |]. split.
        -- intros Hin. apply dict_get_In in Hin. congruence.
        -- now apply keys_dict_set_absent.
  - destruct (remove_item_outcome item qty w)
      as [(e & _ & -> & _) | [(l & _ & _ & ->) |
          (name & d0 & cur & R & new & l & _ & Hi & _ & _ & Hd0 & Hk & _ & -> & _)]]; simpl.
    + eauto.
    + eauto.
    + assert (d0 = d) as -> by congruence. eexists. split; [reflexivity |].
      destruct (py_eq_zero new).
      * right. exists name. split; [assumption | apply keys_dict_del].
      * left. apply keys_dict_set_present. congruence.
Qed.

Lemma low_items_number threshold d :
  forallb (fun kv => is_number (snd kv)) d = true ->
  exists l, low_items threshold d = Returned l.
Proof.
  induction d as [|[k v] r IH]; simpl; [eauto |].
  intros [Hv Hr]%andb_prop. destruct (IH Hr) as [l ->].
  unfold is_number in Hv. unfold py_lt_int.
  destruct (as_num v) as [[z | x] |]; [eauto | eauto | discriminate].
Qed.

Lemma low_items_not_number threshold d :
  forallb (fun kv => is_number (snd kv)) d = false ->
  low_items threshold d = Raised TypeError.
Proof.
  induction d as [|[k v] r IH]; simpl; [discriminate |].
  unfold is_number at 1. unfold py_lt_int.
  destruct (as_num v) as [[z | x] |]; simpl; auto;
    intros Hr; rewrite (IH Hr); reflexivity.
Qed.

(** [check_low_items] returns a list exactly when [stock_data] is a
    dictionary whose values are all numbers.  On a dictionary with a
    value that is not a number the comparison raises [TypeError], and on
    an object that is no dictionary [items] raises [AttributeError]. *)
Theorem check_low_items_raises w threshold :
  match stock_data w with
  | PDict d =>
      if forallb (fun kv => is_number (snd kv)) d
      then exists l, check_low_items threshold w = (Returned l, w)
      else check_low_items threshold w = (Raised TypeError, w)
  | _ => check_low_items threshold w = (Raised AttributeError, w)
  end.
Proof.
  unfold check_low_items. run.
  destruct (stock_data w) as [| b | z | x | s | l | d]; try reflexivity.
  destruct (forallb _ d) eqn:Hall.
  - destruct (low_items_number threshold d Hall) as [l ->]. eauto.
  - now rewrite (low_items_not_number threshold d Hall).
Qed.

Lemma filter_below_le t1 t2 d names :
  t1 <= t2 ->
  List.filter (below t1 d) names =
    List.filter (below t1 d) (List.filter (below t2 d) names).
Proof.
  intros Hle. induction names as [|k r IH]; simpl; [reflexivity |].
  destruct (below t1 d k) eqn:H1.
  - assert (H2 : below t2 d k = true).
    { unfold below in *. destruct (dict_get k d) as [[]|]; try discriminate.
      apply Z.ltb_lt in H1. apply Z.ltb_lt. lia. }
    rewrite H2. simpl. rewrite H1. now f_equal.
  - destruct (below t2 d k); simpl; [rewrite H1 |]; exact IH.
Qed.

(** Raising the threshold only adds low items: on a mapping of integers
    the list for the smaller threshold is the list for the larger one
    with the items at or above the smaller threshold left out, in the
    same order. *)
Theorem check_low_items_monotone w d t1 t2 :
  stock_data w = PDict d -> dict_wf d -> int_valued d -> t1 <= t2 ->
  exists l1 l2,
    check_low_items t1 w = (Returned l1, w) /\
    check_low_items t2 w = (Returned l2, w) /\
    l1 = List.filter (below t1 d) l2 /\
    (forall k, In k l1 -> In k l2).
Proof.
  intros Hd Hwf Hint Hle.
  exists (List.filter (below t1 d) (keys d)), (List.filter (below t2 d) (keys d)).
  assert (Hrun : forall t, check_low_items t w =
                   (Returned (List.filter (below t d) (keys d)), w)).
  { intros t. unfold check_low_items. run. rewrite Hd.
    now rewrite low_items_filter. }
  split; [apply Hrun |]. split; [apply Hrun |].
  split; [now apply filter_below_le |].
  intros k. rewrite (filter_below_le t1 t2 d (keys d) Hle), filter_In. tauto.
Qed.

End Composition.

(** ** More about saving and loading *)

Section MorePersistence.

Context {text : Type}.
Variable json_load : text -> option pyval.
Variable json_dump : pyval -> text.

Implicit Types (w : world text) (file_path : string).

(** [save_data] always returns normally, leaves [stock_data] as it was
    and emits exactly one record, at level INFO or ERROR; the record is
    at level INFO only when the path then holds the encoding of
    [stock_data]. *)
Theorem save_data_log w file_path :
  exists w' lv m,
    save_data json_dump file_path w = (Returned tt, w') /\
    stock_data w' = stock_data w /\
    log w' = log w ++ [(lv, m)] /\
    (lv = INFO \/ lv = ERROR) /\
    (lv = INFO ->
     files w' !! file_path = Some (Regular (json_dump (stock_data w)))).
Proof.
  destruct w as [s f l]. unfold save_data, write_file. run.
  destruct (f !! file_path) as [[t | e] |] eqn:Hf; simpl;
    eexists _, _, _; (split; [reflexivity |]); simpl;
    (split; [reflexivity |]); (split; [reflexivity |]);
    (split; [auto |]); rewrite ?lookup_insert_eq; auto; discriminate.
Qed.

(** [load_data] emits exactly one record and leaves the files alone:
    the record is at level INFO when the file decoded or does not exist,
    and at level ERROR when its text is no JSON or it cannot be read. *)
Theorem load_data_log w file_path :
  exists lv m,
    log (snd (load_data json_load file_path w)) = log w ++ [(lv, m)] /\
    files (snd (load_data json_load file_path w)) = files w /\
    (lv = INFO \/ lv = ERROR) /\
    (lv = INFO <->
     document json_load file_path w <> None \/
     files w !! file_path = None \/
     files w !! file_path = Some (Faulty FileNotFoundError)).
Proof.
  destruct w as [s f l]. unfold load_data, read_file, decode, document. run.
  destruct (f !! file_path) as [[t | e] |] eqn:Hf; simpl.
  - destruct (json_load t) as [doc |] eqn:Ht; simpl;
      eexists _, _; (split; [reflexivity |]); (split; [reflexivity |]).
    + split; [auto |]. split; [intros _; left; discriminate | auto].
    + split; [auto |]. split; [discriminate |].
      intros [H | [H | H]]; congruence.
  - destruct e; simpl;
      eexists _, _; (split; [reflexivity |]); (split; [reflexivity |]);
      (split; [auto |]); (split; [try discriminate; auto |]);
      try (intros [H | [H | H]]; congruence); auto.
  - eexists _, _. split; [reflexivity |]. split; [reflexivity |].
    split; [auto |]. split; auto.
Qed.

End MorePersistence.

(** ** The program on concrete inputs *)

Section Concrete.

Local Open Scope py_scope.

(** Decides [positive_valued] and [int_valued] on a dictionary given by
    its entries. *)
Ltac concrete_valued :=
  let k := fresh "k" in
  let v := fresh "v" in
  let H := fresh "H" in
  intros k v H; simpl in H;
  repeat match type of H with
         | (if String.eqb k ?s then _ else _) = _ =>
             destruct (String.eqb k s);
             [ injection H as <-; eexists; try split; try reflexivity; try lia | ]
         end;
  try discriminate.

(** The operations of [main] (lines 176-203), without its printing. *)
Definition main_operations : M (text := Doc.text) unit :=
  load_data Doc.json_load INVENTORY_FILE ;;
  add_item (PStr "apple") (PInt 10) ;;
  add_item (PStr "banana") (PInt 8) ;;
  add_item (PStr "orange") (PInt 5) ;;
  add_item (PStr "grape") (PStr "7") ;;
  remove_item (PStr "apple") (PInt 3) ;;
  add_item (PStr "banana") (PInt (-2)) ;;
  add_item (PInt 123) (PStr "ten") ;;
  remove_item (PStr "kiwi") (PInt 1) ;;
  remove_item (PStr "orange") (PInt 10).

(** The comments of [main]: apple stock 7, banana stock 6; and the low
    items at the default threshold 5. *)
Example main_stock :
  let w := snd (main_operations Doc.start) in
  stock_data w = PDict [("apple", PInt 7); ("banana", PInt 6); ("grape", PInt 7)] /\
  fst (get_qty "apple" w) = Returned (PInt 7) /\
  fst (get_qty "banana" w) = Returned (PInt 6) /\
  fst (check_low_items 5 w) = Returned [].
Proof. vm_compute. repeat split. Qed.

(** What [main] saves is what it loads back after clearing the mapping. *)
Example main_reload :
  stock_data (snd ((main_operations ;;
                    save_data Doc.json_dump INVENTORY_FILE ;;
                    set_stock (PDict []) ;;
                    load_data Doc.json_load INVENTORY_FILE) Doc.start)) =
    PDict [("apple", PInt 7); ("banana", PInt 6); ("grape", PInt 7)].
Proof. vm_compute. reflexivity. Qed.

(** C1, refuted as stated for [load_data]: the file holds the object
    with the member ["apple": 0]; the mapping before the load is empty
    and satisfies the invariant, the mapping after it maps a key to 0. *)
Lemma load_data_breaks_invariant :
  stock_invariant (stock_data (Doc.start_with INVENTORY_FILE Doc.apple_zero)) /\
  stock_data (snd (load_data Doc.json_load INVENTORY_FILE
                     (Doc.start_with INVENTORY_FILE Doc.apple_zero))) =
    PDict [("apple", PInt 0)] /\
  ~ stock_invariant
      (stock_data (snd (load_data Doc.json_load INVENTORY_FILE
                          (Doc.start_with INVENTORY_FILE Doc.apple_zero)))).
Proof.
  split; [| split].
  - exists []. split; [reflexivity | concrete_valued].
  - vm_compute. reflexivity.
  - intros (d & Hd & Hpos). vm_compute in Hd. injection Hd as <-.
    destruct (Hpos "apple" (PInt 0) eq_refl) as (z & [= <-] & Hz). lia.
Qed.

Lemma stock_invariant_preserved_witness :
  stock_invariant (stock_data (Doc.stocked [("apple", PInt 10)])) /\
  stock_invariant
    (stock_data (snd (remove_item (PStr "apple") (PInt 3)
                        (Doc.stocked [("apple", PInt 10)])))).
Proof.
  assert (H : stock_invariant (stock_data (Doc.stocked [("apple", PInt 10)]))).
  { exists [("apple", PInt 10)]. split; [reflexivity | concrete_valued]. }
  split; [exact H |].
  apply (stock_invariant_preserved Doc.json_load Doc.json_dump
           (Doc.stocked [("apple", PInt 10)]) H).
Defined.

(** The scenario of the specification: 5 oranges, 10 removed. *)
Lemma remove_item_quantity_witness :
  exists w' d',
    remove_item (PStr "orange") (PInt 10) (Doc.stocked [("orange", PInt 5)]) =
      (Returned tt, w') /\
    stock_data w' = PDict d' /\
    get_qty "orange" w' = (Returned (PInt (Z.max 0 (5 - 10))), w') /\
    (dict_get "orange" d' = None <-> Z.max 0 (5 - 10) = 0) /\
    (forall v, dict_get "orange" d' = Some v -> v = PInt (5 - 10) /\ 0 < 5 - 10).
Proof.
  apply (remove_item_quantity (Doc.stocked [("orange", PInt 5)]) [("orange", PInt 5)]);
    [discriminate | reflexivity | reflexivity | reflexivity | lia].
Defined.

Lemma add_item_twice_witness :
  exists w',
    (add_item (PStr "apple") (PInt 10) ;; add_item (PStr "apple") (PInt 5)) Doc.start =
      (Returned tt, w') /\
    get_qty "apple" w' = (Returned (PInt (10 + 5)), w').
Proof.
  apply (add_item_twice Doc.start [] "apple" 10 5);
    [discriminate | reflexivity | reflexivity | lia | lia].
Defined.

(** The scenario of the specification: 10 apples, then [add_item] of -3. *)
Lemma add_negative_is_remove_witness :
  fst (add_item (PStr "apple") (PInt (- 3)) (Doc.stocked [("apple", PInt 10)])) =
    fst (remove_item (PStr "apple") (PInt 3) (Doc.stocked [("apple", PInt 10)])) /\
  stock_data (snd (add_item (PStr "apple") (PInt (- 3)) (Doc.stocked [("apple", PInt 10)]))) =
    stock_data (snd (remove_item (PStr "apple") (PInt 3) (Doc.stocked [("apple", PInt 10)]))) /\
  files (snd (add_item (PStr "apple") (PInt (- 3)) (Doc.stocked [("apple", PInt 10)]))) =
    files (snd (remove_item (PStr "apple") (PInt 3) (Doc.stocked [("apple", PInt 10)]))).
Proof.
  apply (add_negative_is_remove (Doc.stocked [("apple", PInt 10)]) (PStr "apple") 3).
  lia.
Defined.

(** C5, refuted as stated: the float 2.5 is fractional, its coercion
    does not fail but gives 2, and [add_item] stores 2 under the item:
    the mapping is not the same before and after the call. *)
Lemma fractional_float_is_added :
  (exists x, two_and_a_half = PFloat x /\ Float.is_integer x = false) /\
  py_int two_and_a_half = Returned 2 /\
  stock_data (snd (add_item (PStr "apple") two_and_a_half Doc.start)) =
    PDict [("apple", PInt 2)] /\
  stock_data (snd (add_item (PStr "apple") two_and_a_half Doc.start)) <>
    stock_data Doc.start.
Proof.
  split; [| split; [| split]].
  - eexists. split; [reflexivity | vm_compute; reflexivity].
  - vm_compute. reflexivity.
  - vm_compute. reflexivity.
  - vm_compute. discriminate.
Qed.

(** The text [2.5] and the text [ten] of [main] are rejected. *)
Lemma coercion_failure_no_mutation_witness :
  (exists lv m lv' m',
     add_item (PStr "grape") (PStr "2.5") Doc.start = (Returned tt, emit lv m Doc.start) /\
     remove_item (PStr "grape") (PStr "2.5") Doc.start = (Returned tt, emit lv' m' Doc.start) /\
     (lv = WARNING \/ lv = ERROR) /\ (lv' = WARNING \/ lv' = ERROR)) /\
  py_int (PStr "ten") = Raised ValueError.
Proof.
  split.
  - apply (proj1 (coercion_failure_no_mutation Doc.start (PStr "grape") (PStr "2.5"))
             ValueError); reflexivity.
  - apply (proj1 (proj2 (coercion_failure_no_mutation Doc.start PNone (PStr "ten")))
             "ten" "t"%char); [reflexivity | simpl; auto | reflexivity].
Defined.


(** C7, refuted as stated for a file that decodes: the file holds the
    array [[1, 2]]; [load_data] returns normally and leaves [stock_data]
    bound to the list, which is no mapping: the invariant fails and
    [get_qty] raises [AttributeError]. *)
Lemma load_data_installs_a_list :
  fst (load_data Doc.json_load INVENTORY_FILE
         (Doc.start_with INVENTORY_FILE Doc.one_two)) = Returned tt /\
  stock_data (snd (load_data Doc.json_load INVENTORY_FILE
                     (Doc.start_with INVENTORY_FILE Doc.one_two))) =
    PList [PInt 1; PInt 2] /\
  ~ stock_invariant
      (stock_data (snd (load_data Doc.json_load INVENTORY_FILE
                          (Doc.start_with INVENTORY_FILE Doc.one_two)))) /\
  fst (get_qty "apple"
         (snd (load_data Doc.json_load INVENTORY_FILE
                 (Doc.start_with INVENTORY_FILE Doc.one_two)))) =
    Raised AttributeError.
Proof.
  split; [| split; [| split]].
  - vm_compute. reflexivity.
  - vm_compute. reflexivity.
  - intros (d & Hd & _). vm_compute in Hd. discriminate.
  - vm_compute. reflexivity.
Qed.

(** A missing file, as at the first run of [main]. *)
Lemma load_data_total_witness :
  exists w',
    load_data Doc.json_load INVENTORY_FILE Doc.start = (Returned tt, w') /\
    stock_data w' = PDict [].
Proof.
  destruct (load_data_total Doc.json_load Doc.start INVENTORY_FILE)
    as (w' & Hrun & _ & Hmissing & _).
  exists w'. split; [exact Hrun | apply Hmissing; reflexivity].
Defined.

Lemma check_low_items_spec_witness :
  check_low_items 5
    (Doc.stocked [("apple", PInt 7); ("kiwi", PInt 4); ("banana", PInt 6); ("fig", PInt 2)]) =
    (Returned ["kiwi"; "fig"],
     Doc.stocked [("apple", PInt 7); ("kiwi", PInt 4); ("banana", PInt 6); ("fig", PInt 2)]).
Proof.
  apply (check_low_items_spec
           (Doc.stocked [("apple", PInt 7); ("kiwi", PInt 4); ("banana", PInt 6); ("fig", PInt 2)])
           [("apple", PInt 7); ("kiwi", PInt 4); ("banana", PInt 6); ("fig", PInt 2)] 5).
  - reflexivity.
  - unfold dict_wf. simpl. apply (bool_decide_unpack _). vm_compute. exact I.
  - concrete_valued.
Defined.

(** The scenario of the specification: removing a kiwi from the empty
    mapping. *)
Lemma remove_item_absent_noop_witness :
  exists w',
    remove_item (PStr "kiwi") (PInt 1) Doc.start = (Returned tt, w') /\
    stock_data w' = stock_data Doc.start /\
    files w' = files Doc.start /\
    log w' = log Doc.start ++ [(ERROR, MsgNotFound "kiwi")].
Proof.
  apply (remove_item_absent_noop Doc.start [] "kiwi" (PInt 1) 1);
    [discriminate | reflexivity | reflexivity | reflexivity | lia].
Defined.

Lemma other_keys_unchanged_witness :
  fst (get_qty "banana"
         (snd (add_item (PStr "apple") (PInt 3)
                 (Doc.stocked [("apple", PInt 10); ("banana", PInt 8)])))) =
    fst (get_qty "banana" (Doc.stocked [("apple", PInt 10); ("banana", PInt 8)])) /\
  fst (get_qty "banana"
         (snd (remove_item (PStr "apple") (PInt 3)
                 (Doc.stocked [("apple", PInt 10); ("banana", PInt 8)])))) =
    fst (get_qty "banana" (Doc.stocked [("apple", PInt 10); ("banana", PInt 8)])).
Proof.
  apply (other_keys_unchanged (Doc.stocked [("apple", PInt 10); ("banana", PInt 8)])
           (PStr "apple") (PInt 3) "banana").
  discriminate.
Defined.

(** *** The further properties on concrete inputs *)

(** A report of three items, given out of order. *)
Lemma print_data_report_witness :
  exists rows,
    print_data (Doc.stocked [("banana", PInt 6); ("apple", PInt 7); ("fig", PInt 2)]) =
      (Returned tt,
       PrintText report_header ::
       map (report_row (longest (keys [("banana", PInt 6); ("apple", PInt 7); ("fig", PInt 2)])))
           rows ++
       [PrintText report_footer]) /\
    Permutation rows [("banana", PInt 6); ("apple", PInt 7); ("fig", PInt 2)] /\
    StronglySorted entry_le rows.
Proof.
  apply (print_data_report
           (Doc.stocked [("banana", PInt 6); ("apple", PInt 7); ("fig", PInt 2)])
           [("banana", PInt 6); ("apple", PInt 7); ("fig", PInt 2)]).
  reflexivity.
Defined.

Example print_data_three_items :
  print_data (Doc.stocked [("banana", PInt 6); ("apple", PInt 7); ("fig", PInt 2)]) =
    (Returned tt,
     [PrintText report_header;
      PrintRow "apple " (PInt 7); PrintRow "banana" (PInt 6); PrintRow "fig   " (PInt 2);
      PrintText report_footer]).
Proof. vm_compute. reflexivity. Qed.

Lemma print_data_aligned_witness :
  String.length "fig   " = longest (keys [("banana", PInt 6); ("fig", PInt 2)]) /\
  (exists name, In name (keys [("banana", PInt 6); ("fig", PInt 2)]) /\
     String.length name = longest (keys [("banana", PInt 6); ("fig", PInt 2)])) /\
  exists name pad,
    In (name, PInt 2) [("banana", PInt 6); ("fig", PInt 2)] /\
    "fig   " = String.append name (spaces pad).
Proof.
  apply (print_data_aligned (Doc.stocked [("banana", PInt 6); ("fig", PInt 2)])
           [("banana", PInt 6); ("fig", PInt 2)] "fig   " (PInt 2)).
  - reflexivity.
  - vm_compute. auto.
Defined.

(** The quantity of [main] that is given as text. *)
Lemma quantity_as_coerced_witness :
  add_item (PStr "grape") (PStr "7") Doc.start =
    add_item (PStr "grape") (PInt 7) Doc.start /\
  remove_item (PStr "grape") (PStr "7") Doc.start =
    remove_item (PStr "grape") (PInt 7) Doc.start.
Proof.
  apply (quantity_as_coerced (PStr "grape") (PStr "7") 7 Doc.start). reflexivity.
Defined.

Lemma add_item_zero_noop_witness :
  fst (add_item (PStr "apple") (PStr "0") (Doc.stocked [("apple", PInt 7)])) = Returned tt /\
  stock_data (snd (add_item (PStr "apple") (PStr "0") (Doc.stocked [("apple", PInt 7)]))) =
    stock_data (Doc.stocked [("apple", PInt 7)]) /\
  files (snd (add_item (PStr "apple") (PStr "0") (Doc.stocked [("apple", PInt 7)]))) =
    files (Doc.stocked [("apple", PInt 7)]) /\
  (as_item (PStr "apple") <> None ->
   snd (add_item (PStr "apple") (PStr "0") (Doc.stocked [("apple", PInt 7)])) =
     Doc.stocked [("apple", PInt 7)]).
Proof.
  apply (add_item_zero_noop (PStr "apple") (PStr "0") (Doc.stocked [("apple", PInt 7)])).
  reflexivity.
Defined.

(** An infinite quantity: [int] raises [OverflowError], and no clause
    catches it. *)
Lemma uncaught_coercion_error_escapes_witness :
  add_item (PStr "apple") (PFloat (S754_infinity false))
      (Doc.stocked [("apple", PInt 7)]) =
    (Raised OverflowError, Doc.stocked [("apple", PInt 7)]) /\
  remove_item (PStr "apple") (PFloat (S754_infinity false))
      (Doc.stocked [("apple", PInt 7)]) =
    (Raised OverflowError, Doc.stocked [("apple", PInt 7)]).
Proof.
  apply (uncaught_coercion_error_escapes (PStr "apple") "apple"
           (PFloat (S754_infinity false)) OverflowError
           (Doc.stocked [("apple", PInt 7)])); reflexivity.
Defined.

(** Adding to a list that [load_data] has installed, and to an item
    whose stored value is text. *)
Lemma add_item_unguarded_addition_witness :
  add_item (PStr "apple") (PInt 3)
      (World (text := Doc.text) (PList [PInt 1; PInt 2]) ∅ []) =
    (Raised AttributeError, World (PList [PInt 1; PInt 2]) ∅ []) /\
  add_item (PStr "apple") (PStr "3") (Doc.stocked [("apple", PStr "x")]) =
    (Raised TypeError, Doc.stocked [("apple", PStr "x")]).
Proof.
  split.
  - apply (proj1 (add_item_unguarded_addition (PStr "apple") "apple" (PInt 3) 3
                    (World (PList [PInt 1; PInt 2]) ∅ [])
                    eq_refl eq_refl eq_refl)).
    intros d. discriminate.
  - apply (proj2 (add_item_unguarded_addition (PStr "apple") "apple" (PStr "3") 3
                    (Doc.stocked [("apple", PStr "x")])
                    eq_refl eq_refl eq_refl)
             [("apple", PStr "x")] (PStr "x")); reflexivity.
Defined.

Lemma add_then_remove_restores_witness :
  fst ((add_item (PStr "banana") (PInt 4) ;; remove_item (PStr "banana") (PInt 4))
         (Doc.stocked [("apple", PInt 7); ("banana", PInt 6)])) = Returned tt /\
  stock_data
    (snd ((add_item (PStr "banana") (PInt 4) ;; remove_item (PStr "banana") (PInt 4))
            (Doc.stocked [("apple", PInt 7); ("banana", PInt 6)]))) =
    PDict [("apple", PInt 7); ("banana", PInt 6)].
Proof.
  apply (add_then_remove_restores (Doc.stocked [("apple", PInt 7); ("banana", PInt 6)])
           [("apple", PInt 7); ("banana", PInt 6)] "banana" 4).
  - discriminate.
  - lia.
  - reflexivity.
  - right. exists 6. split; [reflexivity | lia].
Defined.

Lemma remove_remove_merges_witness :
  stock_data
    (snd ((remove_item (PStr "apple") (PInt 3) ;; remove_item (PStr "apple") (PInt 2))
            (Doc.stocked [("apple", PInt 7)]))) =
    stock_data (snd (remove_item (PStr "apple") (PInt (3 + 2)) (Doc.stocked [("apple", PInt 7)]))).
Proof.
  apply (remove_remove_merges (Doc.stocked [("apple", PInt 7)]) [("apple", PInt 7)]
           "apple" 3 2).
  - discriminate.
  - lia.
  - lia.
  - reflexivity.
  - right. now exists 7.
Defined.

Lemma add_add_merges_witness :
  stock_data
    (snd ((add_item (PStr "apple") (PInt 3) ;; add_item (PStr "apple") (PInt 2))
            (Doc.stocked [("apple", PInt 7)]))) =
    stock_data (snd (add_item (PStr "apple") (PInt (3 + 2)) (Doc.stocked [("apple", PInt 7)]))).
Proof.
  apply (add_add_merges (Doc.stocked [("apple", PInt 7)]) [("apple", PInt 7)]
           "apple" 3 2).
  - discriminate.
  - lia.
  - lia.
  - reflexivity.
  - right. now exists 7.
Defined.

(** A new item goes last. *)
Lemma keys_after_update_witness :
  exists d',
    stock_data (snd (add_item (PStr "fig") (PInt 2)
                       (Doc.stocked [("banana", PInt 6); ("apple", PInt 7)]))) = PDict d' /\
    (keys d' = keys [("banana", PInt 6); ("apple", PInt 7)] \/
     (exists name, as_item (PStr "fig") = Some name /\
        ~ In name (keys [("banana", PInt 6); ("apple", PInt 7)]) /\
        keys d' = keys [("banana", PInt 6); ("apple", PInt 7)] ++ [name]) \/
     (exists name, as_item (PStr "fig") = Some name /\
        keys d' = List.filter (fun k => negb (String.eqb name k))
                    (keys [("banana", PInt 6); ("apple", PInt 7)]))).
Proof.
  apply (keys_after_update (Doc.stocked [("banana", PInt 6); ("apple", PInt 7)])
           [("banana", PInt 6); ("apple", PInt 7)] (PStr "fig") (PInt 2)).
  reflexivity.
Defined.

Lemma check_low_items_monotone_witness :
  exists l1 l2,
    check_low_items 3 (Doc.stocked [("apple", PInt 7); ("kiwi", PInt 4); ("fig", PInt 2)]) =
      (Returned l1, Doc.stocked [("apple", PInt 7); ("kiwi", PInt 4); ("fig", PInt 2)]) /\
    check_low_items 5 (Doc.stocked [("apple", PInt 7); ("kiwi", PInt 4); ("fig", PInt 2)]) =
      (Returned l2, Doc.stocked [("apple", PInt 7); ("kiwi", PInt 4); ("fig", PInt 2)]) /\
    l1 = List.filter (below 3 [("apple", PInt 7); ("kiwi", PInt 4); ("fig", PInt 2)]) l2 /\
    (forall k, In k l1 -> In k l2).
Proof.
  apply (check_low_items_monotone
           (Doc.stocked [("apple", PInt 7); ("kiwi", PInt 4); ("fig", PInt 2)])
           [("apple", PInt 7); ("kiwi", PInt 4); ("fig", PInt 2)] 3 5).
  - reflexivity.
  - unfold dict_wf. simpl. apply (bool_decide_unpack _). vm_compute. exact I.
  - concrete_valued.
  - lia.
Defined.

End Concrete.
